(** * Multi-agent fire search: belief grid, drone actions and the tick orchestrator

    A shallow embedding of [code/belief_state.py], [code/fire_environment.py]
    and [code/environment.py].

    Conventions of the embedding:
    - Python integers are [Z]; [//] by a positive constant is [Z.div] (both
      round towards minus infinity).
    - numpy's float arrays are lists of rows of exact rationals [Q]: the
      development reasons about the arithmetic the code intends, not about
      IEEE rounding.  Numeric results are therefore stated up to [Qeq].
    - in-place mutation of [self] is explicit state passing: every method
      takes the object and returns the updated object.  The methods of
      [BeliefState] never share a grid between two objects (a merge that
      adopts the peer's grid copies it), so a grid is a value.
    - [print] calls are dropped.
    - [drone.py], whose [Drone] is the one [experiments.py] hands to
      [SearchEnv.step], is not part of the sources: [step] is embedded over
      the interface it uses of a drone, and [Agent] below instantiates that
      interface from the specification. *)

From Stdlib Require Import ZArith QArith Lia Lqa Bool.
From stdpp Require Import base list gmap.

Set Default Proof Using "Type".

(** ** A small numpy kernel *)

Module np.

(** A two-dimensional float array, row-major. *)
Abbreviation ndarray := (list (list Q)).

(** [np.zeros((r, c))] and [np.ones((r, c))]. *)
Definition zeros (r c : nat) : ndarray := replicate r (replicate c 0%Q).
Definition ones (r c : nat) : ndarray := replicate r (replicate c 1%Q).

(** Sum of a flat list, and [a.sum()]. *)
Definition sum_list (l : list Q) : Q := foldr Qplus 0%Q l.
Definition sum (a : ndarray) : Q := sum_list (sum_list <$> a).

(** [a / s], [w * a] and [a + b], elementwise.  Where [s] is 0 numpy
    yields [nan] or [inf] and [Qdiv] yields 0: the theorems divide by
    non-zero totals only.  [a + b] is used on arrays of one shape. *)
Definition div (a : ndarray) (s : Q) : ndarray := fmap (M := list) (fun v => (v / s)%Q) <$> a.
Definition scale (w : Q) (a : ndarray) : ndarray := fmap (M := list) (fun v => (w * v)%Q) <$> a.
Definition add (a b : ndarray) : ndarray := zip_with (zip_with Qplus) a b.

(** [a[i, j]] for a cell of the array (0 outside of it, where numpy
    raises [IndexError]; the theorems only read cells of the grid). *)
Definition get (a : ndarray) (i j : nat) : Q :=
  default 0%Q (a !! i ≫= fun row => row !! j).

(** [a[i, j] = v] for non-negative [i], [j].  Outside of the array numpy
    raises [IndexError] and this does nothing; the loops below only write
    cells below [grid_size], which are cells of a well-shaped grid. *)
Definition set (a : ndarray) (i j : nat) (v : Q) : ndarray :=
  alter (fun row => <[j := v]> row) i a.

(** [a.copy()]: a fresh array with the same contents. *)
Definition copy (a : ndarray) : ndarray := a.

(** [np.argmax] on a flat list: the index of the first occurrence of the
    maximum; [None] stands for the [ValueError] on an empty sequence. *)
Fixpoint argmax_from (best_i : nat) (best : Q) (i : nat) (l : list Q) : nat :=
  match l with
  | [] => best_i
  | v :: l' =>
      if Qlt_le_dec best v
      then argmax_from i v (S i) l'
      else argmax_from best_i best (S i) l'
  end.

Definition argmax_list (l : list Q) : option nat :=
  match l with
  | [] => None
  | v :: l' => Some (argmax_from 0 v 1 l')
  end.

(** [np.argmax(a)] works on the flattened (row-major) array. *)
Definition flatten (a : ndarray) : list Q := concat a.
Definition argmax (a : ndarray) : option nat := argmax_list (flatten a).

(** [a.shape] for a rectangular array. *)
Definition shape (a : ndarray) : nat * nat :=
  (length a, match a with [] => 0 | row :: _ => length row end).

(** [np.unravel_index(idx, (rows, cols))] in C order. *)
Definition unravel_index (idx : nat) (shp : nat * nat) : nat * nat :=
  (idx / snd shp, idx mod snd shp).

End np.

(** Python's [range(lo, hi)]. *)
Definition range (lo hi : Z) : list Z := seqZ lo (hi - lo).

(** ** [belief_state.py] *)

Module BeliefState.

Record t : Type := mk {
  grid_size : Z;
  belief : np.ndarray;
  fire_found : bool;
  fire_location : option (Z * Z)
}.

(** [BeliefState.__init__]: uniform prior, nothing found.  (A negative
    [grid_size] makes [np.ones] raise; here it gives the empty grid.) *)
Definition init (grid_size : Z) : t :=
  {| grid_size := grid_size;
     belief := np.div (np.ones (Z.to_nat grid_size) (Z.to_nat grid_size))
                      (inject_Z (grid_size * grid_size));
     fire_found := false;
     fire_location := None |}.

(** The two nested [for] loops of [update_with_observation]: every cell
    [(i, j)] with [i] in [rows] and [j] in [cols] is assigned [v]. *)
Definition fill (b : np.ndarray) (rows cols : list Z) (v : Q) : np.ndarray :=
  foldl (fun b i => foldl (fun b j => np.set b (Z.to_nat i) (Z.to_nat j) v) b cols)
        b rows.

(** [range(max(0, c - window_size // 2), min(grid_size, c + window_size // 2 + 1))] *)
Definition window (grid_size c window_size : Z) : list Z :=
  range (Z.max 0 (c - window_size / 2))
        (Z.min grid_size (c + window_size / 2 + 1)).

(** [self.belief /= self.belief.sum()] *)
Definition normalize (b : np.ndarray) : np.ndarray := np.div b (np.sum b).

(** [if self.belief.sum() > 0: self.belief /= self.belief.sum()] *)
Definition normalize_if_positive (b : np.ndarray) : np.ndarray :=
  if Qlt_le_dec 0 (np.sum b) then normalize b else b.

Definition update_with_observation
    (self : t) (drone_position : Z * Z) (window_size : Z) (fire_observed : bool) : t :=
  let '(x, y) := drone_position in
  let n := grid_size self in
  if fire_observed then
    let b0 := np.zeros (Z.to_nat n) (Z.to_nat n) in
    let b1 := fill b0 (window n x window_size) (window n y window_size) 1%Q in
    {| grid_size := n;
       belief := normalize b1;
       fire_found := true;
       fire_location := fire_location self |}
  else
    let b1 := fill (belief self) (window n x window_size) (window n y window_size) 0%Q in
    {| grid_size := n;
       belief := normalize_if_positive b1;
       fire_found := fire_found self;
       fire_location := fire_location self |}.

(** [get_most_likely_location]; [None] is numpy's [ValueError] on an
    empty grid. *)
Definition get_most_likely_location (self : t) : option (nat * nat) :=
  idx ← np.argmax (belief self);
  Some (np.unravel_index idx (np.shape (belief self))).

(** [merge_with_other_belief] *)
Definition merge_with_other_belief (self other_belief : t) (weight : Q) : t :=
  if fire_found other_belief then
    {| grid_size := grid_size self;
       belief := np.copy (belief other_belief);
       fire_found := true;
       fire_location := fire_location other_belief |}
  else
    {| grid_size := grid_size self;
       belief := normalize_if_positive
                   (np.add (np.scale weight (belief self))
                           (np.scale (1 - weight)%Q (belief other_belief)));
       fire_found := fire_found self;
       fire_location := fire_location self |}.

End BeliefState.

(** ** [fire_environment.py]: the drone *)

Module Drone.

(** The [state] property: [[self.x, self.y, self.fire_found, self.time]]. *)
Definition snapshot : Type := Z * Z * bool * Q.

Record t : Type := mk {
  grid_size : Z;
  window_size : Z;
  time : Q;
  dt : Q;
  position : Z * Z;
  fire_found : bool;
  history : list snapshot
}.

Definition x (self : t) : Z := fst (position self).
Definition y (self : t) : Z := snd (position self).
Definition state (self : t) : snapshot := (x self, y self, fire_found self, time self).

(** [Drone.__init__]; [pos] is the draw of [np.random.randint]. *)
Definition init (grid_size window_size : Z) (time dt : Q) (pos : Z * Z) : t :=
  let self := mk grid_size window_size time dt pos false [] in
  mk grid_size window_size time dt pos false [state self].

(** [observe]: is the fire inside the window around the drone? *)
Definition observe (self : t) (fire_pos : Z * Z) : bool :=
  let x_check := (x self - window_size self / 2 <=? fst fire_pos)%Z
                 && (fst fire_pos <=? x self + window_size self / 2)%Z in
  let y_check := (y self - window_size self / 2 <=? snd fire_pos)%Z
                 && (snd fire_pos <=? y self + window_size self / 2)%Z in
  x_check && y_check.

(** The [if]/[elif] chain of [action]: the new coordinates. *)
Definition move (self : t) (action : Z) : Z * Z :=
  if (action =? 1)%Z then (x self, Z.min (grid_size self - 1) (y self + 1))
  else if (action =? 2)%Z then (x self, Z.max 0 (y self - 1))
  else if (action =? 3)%Z then (Z.max 0 (x self - 1), y self)
  else if (action =? 4)%Z then (Z.min (grid_size self - 1) (x self + 1), y self)
  else (x self, y self).

(** [action]: the updated drone and the returned value.  [P] is the type
    of packets of the caller; the function ends in [return None]. *)
Definition action {P : Type} (self : t) (action : Z) (fire_pos : Z * Z) : t * option P :=
  let s1 := mk (grid_size self) (window_size self) (time self) (dt self)
               (move self action) (fire_found self) (history self) in
  let s2 := mk (grid_size s1) (window_size s1) (time s1) (dt s1)
               (position s1) (observe s1 fire_pos) (history s1) in
  let s3 := mk (grid_size s2) (window_size s2) (time s2 + dt s2)%Q (dt s2)
               (position s2) (fire_found s2) (history s2) in
  let s4 := mk (grid_size s3) (window_size s3) (time s3) (dt s3)
               (position s3) (fire_found s3) (history s3 ++ [state s3]) in
  (s4, None).

End Drone.

(** ** [environment.py]: the orchestrator *)

(** What [SearchEnv.step] uses of a drone (duck typing): its attributes
    [drone_id], [x], [y], [time] and its methods [action] and
    [receive_telemetry]; of a packet, the key ['sender_id'].  [G] is the
    state of the random generator behind the channel noise. *)
Class DroneLike (D P G : Type) : Type := {
  drone_id : D -> Z;
  drone_x : D -> Z;
  drone_y : D -> Z;
  drone_time : D -> Q;
  drone_action : D -> Z -> Z * Z -> D * option P;
  receive_telemetry : D -> P -> Q -> G -> D * G;
  sender_id : P -> Z
}.

Module SearchEnv.

(** The fields of [SearchEnv] that [step] reads or writes (the figure,
    the axes and the patches belong to [render]). *)
Record t : Type := mk {
  grid_size : Z;
  fire_pos : Z * Z;
  communication_cost : Q;
  movement_cost : Q;
  total_cost : Q;
  fire_extinguished : bool;
  time_to_extinguish : option Q;
  total_communications : Z
}.

(** [SearchEnv.__init__]; [fire] is the draw of [np.random.randint], the
    two costs are [cfg.COMMUNICATION_COST] and [cfg.MOVEMENT_COST]. *)
Definition init (grid_size : Z) (fire : Z * Z) (communication_cost movement_cost : Q) : t :=
  mk grid_size fire communication_cost movement_cost 0 false None 0.

Section Step.
Context {D P G : Type} `{!DroneLike D P G}.

(** The accumulator of the first loop: the drones that have acted,
    [telemetry_packets], [step_cost] and [self.total_communications]. *)
Definition acting : Type := list D * list P * Q * Z.

(** One iteration of [for drone, action in zip(drones, actions)]. *)
Definition act_one (self : t) (acc : acting) (da : D * Z) : acting :=
  let '(acted, telemetry_packets, step_cost, comms) := acc in
  let '(drone, action) := da in
  let '(drone', packet) := drone_action drone action (fire_pos self) in
  match packet with
  | Some p =>
      (acted ++ [drone'], telemetry_packets ++ [p],
       (step_cost + communication_cost self)%Q, (comms + 1)%Z)
  | None =>
      if negb (action =? 0)%Z
      then (acted ++ [drone'], telemetry_packets,
            (step_cost + movement_cost self)%Q, comms)
      else (acted ++ [drone'], telemetry_packets, step_cost, comms)
  end.

Definition act_all (self : t) (drones : list D) (actions : list Z) : acting :=
  foldl (act_one self) ([], [], 0%Q, total_communications self) (zip drones actions).

(** One iteration of the inner loop [for drone in drones] of the
    distribution, for a given packet. *)
Definition deliver (packet : P) (acc : list D * G) (drone : D) : list D * G :=
  let '(seen, g) := acc in
  if decide (drone_id drone <> sender_id packet)
  then let '(drone', g') := receive_telemetry drone packet (5 # 100)%Q g in
       (seen ++ [drone'], g')
  else (seen ++ [drone], g).

Definition distribute (telemetry_packets : list P) (drones : list D) (g : G)
  : list D * G :=
  foldl (fun acc packet => foldl (deliver packet) ([], snd acc) (fst acc))
        (drones, g) telemetry_packets.

(** [drone.x == self.fire_pos[0] and drone.y == self.fire_pos[1]] *)
Definition at_fire (self : t) (drone : D) : bool :=
  (drone_x drone =? fst (fire_pos self))%Z && (drone_y drone =? snd (fire_pos self))%Z.

(** One iteration of the termination scan. *)
Definition check_one (self : t) (drone : D) : t :=
  if at_fire self drone then
    if negb (fire_extinguished self) then
      mk (grid_size self) (fire_pos self) (communication_cost self)
         (movement_cost self) (total_cost self)
         true (Some (drone_time drone)) (total_communications self)
    else self
  else self.

Definition check_all (self : t) (drones : list D) : t := foldl check_one self drones.

(** [step]: the returned pair, the updated environment, the updated
    drones and the state of the random generator. *)
Definition step (self : t) (drones : list D) (actions : list Z) (g : G)
  : (Q * bool) * t * list D * G :=
  let '(acted, telemetry_packets, step_cost, comms) := act_all self drones actions in
  let drones1 := acted ++ drop (length acted) drones in
  let self1 := mk (grid_size self) (fire_pos self) (communication_cost self)
                  (movement_cost self) (total_cost self)
                  (fire_extinguished self) (time_to_extinguish self) comms in
  let '(drones2, g') := distribute telemetry_packets drones1 g in
  let self2 := check_all self1 drones2 in
  let self3 := mk (grid_size self2) (fire_pos self2) (communication_cost self2)
                  (movement_cost self2) (total_cost self2 + step_cost)%Q
                  (fire_extinguished self2) (time_to_extinguish self2)
                  (total_communications self2) in
  ((step_cost, fire_extinguished self3), self3, drones2, g').

(** The driving loop: one [step] per tick, on the drones the previous
    tick left. *)
Fixpoint run (self : t) (drones : list D) (g : G) (ticks : list (list Z))
  : t * list D * G :=
  match ticks with
  | [] => (self, drones, g)
  | actions :: ticks' =>
      let '(_, self', drones', g') := step self drones actions g in
      run self' drones' g' ticks'
  end.

End Step.

End SearchEnv.

(** ** The agent that [step] drives *)

(** Modelled from the spec: [drone.py], the [Drone] class that
    [experiments.py] imports and [SearchEnv.step] drives ([drone_id],
    [belief_state], [visited_cells], [receive_telemetry]), is missing from
    the sources.  The packet follows the data model of the specification
    (sender id, sender position, window size, observed bit, timestamp). *)
Record TelemetryPacket : Type := mkPacket {
  pkt_sender_id : Z;
  pkt_position : Z * Z;
  pkt_window_size : Z;
  pkt_fire_observed : bool;
  pkt_time : Q
}.

Module Agent.

Record t : Type := mk {
  drone_id : Z;
  position : Z * Z;
  window_size : Z;
  belief_state : BeliefState.t;
  time : Q;
  dt : Q;
  visited_cells : gset (Z * Z);
  history : list Drone.snapshot
}.

Definition grid_size (self : t) : Z := BeliefState.grid_size (belief_state self).

(** Modelled from the spec: the fire is observed when it lies in the
    footprint centred on the agent. *)
Definition observe (pos : Z * Z) (window_size : Z) (fire_pos : Z * Z) : bool :=
  (fst pos - window_size / 2 <=? fst fire_pos)%Z
  && (fst fire_pos <=? fst pos + window_size / 2)%Z
  && (snd pos - window_size / 2 <=? snd fire_pos)%Z
  && (snd fire_pos <=? snd pos + window_size / 2)%Z.

(** Modelled from the spec: clamped moves (the axis of each action is the
    one [fire_environment.py] uses). *)
Definition move (self : t) (action : Z) : Z * Z :=
  let '(x, y) := position self in
  if (action =? 1)%Z then (x, Z.min (grid_size self - 1) (y + 1))
  else if (action =? 2)%Z then (x, Z.max 0 (y - 1))
  else if (action =? 3)%Z then (Z.max 0 (x - 1), y)
  else if (action =? 4)%Z then (Z.min (grid_size self - 1) (x + 1), y)
  else (x, y).

(** Modelled from the spec: [act] moves, senses, updates the belief,
    advances the clock, logs, and returns a packet on [communicate]. *)
Definition action (self : t) (action : Z) (fire_pos : Z * Z)
  : t * option TelemetryPacket :=
  let pos := move self action in
  let fire_observed := observe pos (window_size self) fire_pos in
  let b := BeliefState.update_with_observation
             (belief_state self) pos (window_size self) fire_observed in
  let now := (time self + dt self)%Q in
  let self' :=
    mk (drone_id self) pos (window_size self) b now (dt self)
       ({[pos]} ∪ visited_cells self)
       (history self ++ [(fst pos, snd pos, BeliefState.fire_found b, now)]) in
  (self',
   if (action =? 5)%Z
   then Some (mkPacket (drone_id self) pos (window_size self) fire_observed now)
   else None).

(** Modelled from the spec: the generator is a stream of decisions, one
    per delivery, [true] meaning that the reported bit is corrupted; the
    sender's implied belief is rebuilt with the update rule and merged
    with the default weight. *)
Definition receive_telemetry (self : t) (packet : TelemetryPacket)
    (communication_noise : Q) (g : list bool) : t * list bool :=
  let corrupt := default false (head g) in
  let reported := xorb (pkt_fire_observed packet) corrupt in
  let implied :=
    BeliefState.update_with_observation
      (BeliefState.init (grid_size self))
      (pkt_position packet) (pkt_window_size packet) reported in
  let b := BeliefState.merge_with_other_belief (belief_state self) implied (1 # 2) in
  (mk (drone_id self) (position self) (window_size self) b (time self) (dt self)
      (visited_cells self) (history self),
   tail g).

(** A fresh agent at [pos]. *)
Definition init (drone_id grid_size window_size : Z) (time dt : Q) (pos : Z * Z) : t :=
  mk drone_id pos window_size (BeliefState.init grid_size) time dt {[pos]}
     [(fst pos, snd pos, false, time)].

End Agent.

#[export] Instance agent_drone_like : DroneLike Agent.t TelemetryPacket (list bool) := {|
  drone_id := Agent.drone_id;
  drone_x := fun d => fst (Agent.position d);
  drone_y := fun d => snd (Agent.position d);
  drone_time := Agent.time;
  drone_action := Agent.action;
  receive_telemetry := Agent.receive_telemetry;
  sender_id := pkt_sender_id
|}.

(** ** [environment_playground.py]: the two-drone playground *)

Module FireSearchEnv.

(** The fields that [move], [reset] and [step] use (the figure and the
    gymnasium spaces are left out). *)
Record t : Type := mk {
  grid_size : Z;
  fire_pos : Z * Z;
  drones : list (Z * Z)
}.

(** [np.array([*self.drones[0], *self.drones[1]])]; [None] is the
    [IndexError] of a missing drone. *)
Definition observation (drones : list (Z * Z)) : option (list Z) :=
  d0 ← drones !! 0%nat;
  d1 ← drones !! 1%nat;
  Some [fst d0; snd d0; fst d1; snd d1].

(** [reset]; [fire] is the draw of [np.random.randint]. *)
Definition reset (self : t) (fire : Z * Z) : t * option (list Z) :=
  let drones := [(0, 0)%Z; (grid_size self - 1, grid_size self - 1)%Z] in
  (mk (grid_size self) fire drones, observation drones).

(** [__init__]: two draws of the fire, the second one by [reset]. *)
Definition init (grid_size : Z) (fire0 fire1 : Z * Z) : t :=
  fst (reset (mk grid_size fire0 [(0, 0)%Z; (grid_size - 1, grid_size - 1)%Z]) fire1).

(** [move]: 0 up, 1 down, 2 left, 3 right, anything else stays. *)
Definition move (self : t) (pos : Z * Z) (action : Z) : Z * Z :=
  let '(x, y) := pos in
  if (action =? 0)%Z then (Z.max 0 (x - 1), y)
  else if (action =? 1)%Z then (Z.min (grid_size self - 1) (x + 1), y)
  else if (action =? 2)%Z then (x, Z.max 0 (y - 1))
  else if (action =? 3)%Z then (x, Z.min (grid_size self - 1) (y + 1))
  else (x, y).

(** [drone == tuple(self.fire_pos)] *)
Definition at_fire (self : t) (drone : Z * Z) : bool :=
  (fst drone =? fst (fire_pos self))%Z && (snd drone =? snd (fire_pos self))%Z.

(** [step]: the updated environment with the observation, the reward and
    [done]; [None] is the [IndexError] of [self.drones[i]] or [actions[i]]
    for [i] in [range(2)], raised before [self.drones] is assigned. *)
Definition step (self : t) (actions : list Z) : option (t * (list Z * Q * bool)) :=
  d0 ← drones self !! 0%nat;
  a0 ← actions !! 0%nat;
  d1 ← drones self !! 1%nat;
  a1 ← actions !! 1%nat;
  let drones' := [move self d0 a0; move self d1 a1] in
  let done := existsb (at_fire self) drones' in
  let reward := if done then 1%Q else (- (1 # 100))%Q in
  obs ← observation drones';
  Some (mk (grid_size self) (fire_pos self) drones', (obs, reward, done)).

(** One [step] per entry of [ticks], as long as none raises. *)
Fixpoint run (self : t) (ticks : list (list Z)) : option t :=
  match ticks with
  | [] => Some self
  | actions :: ticks' =>
      r ← step self actions;
      run (fst r) ticks'
  end.

End FireSearchEnv.

(** ** Vocabulary of the statements *)

(** [a] has [r] rows of [c] cells each. *)
Definition shaped (r c : nat) (a : np.ndarray) : Prop :=
  length a = r /\ Forall (fun row => length row = c) a.

(** The belief of [self] is a [grid_size] by [grid_size] array. *)
Definition well_shaped (self : BeliefState.t) : Prop :=
  shaped (Z.to_nat (BeliefState.grid_size self)) (Z.to_nat (BeliefState.grid_size self))
         (BeliefState.belief self).

(** The cell [(i, j)] of an array, when there is one. *)
Definition cell (a : np.ndarray) (i j : nat) : option Q :=
  a !! i ≫= fun row => row !! j.

(** The array whose cell [(i, j)] is [f i j]. *)
Definition tabulate (r c : nat) (f : nat -> nat -> Q) : np.ndarray :=
  (fun i => f i <$> seq 0 c) <$> seq 0 r.

(** The cells of an [r] by [c] grid, in row-major order. *)
Definition grid_cells (r c : nat) : list (nat * nat) :=
  i ← seq 0 r; (fun j => (i, j)) <$> seq 0 c.

(** The sensing footprint [[x - w/2, x + w/2] x [y - w/2, y + w/2]]. *)
Definition in_footprint (x y w : Z) (p : nat * nat) : bool :=
  (x - w / 2 <=? Z.of_nat (fst p))%Z && (Z.of_nat (fst p) <=? x + w / 2)%Z
  && (y - w / 2 <=? Z.of_nat (snd p))%Z && (Z.of_nat (snd p) <=? y + w / 2)%Z.

(** The footprint cells of an [n] by [n] grid, and their number. *)
Definition footprint_cells (n : nat) (x y w : Z) : list (nat * nat) :=
  filter (fun p => in_footprint x y w p = true) (grid_cells n n).

Definition footprint_size (n : nat) (x y w : Z) : Q :=
  inject_Z (Z.of_nat (length (footprint_cells n x y w))).

(** The mass of [a] outside of the footprint. *)
Definition mass_outside (n : nat) (x y w : Z) (a : np.ndarray) : Q :=
  np.sum_list ((fun p => np.get a (fst p) (snd p))
                 <$> filter (fun p => in_footprint x y w p = false) (grid_cells n n)).

(** Every cell of the grid is non-negative. *)
Definition non_negative (n : nat) (a : np.ndarray) : Prop :=
  forall i j, (i < n)%nat -> (j < n)%nat -> (0 <= np.get a i j)%Q.

(** [(i, j)] comes no later than [(i', j')] in row-major order. *)
Definition row_major_le (p q : nat * nat) : Prop :=
  (fst p < fst q)%nat \/ (fst p = fst q /\ (snd p <= snd q)%nat).

(** The weighted average of two cells, and its total over the grid. *)
Definition weighted_average (w : Q) (a b : np.ndarray) (i j : nat) : Q :=
  (w * np.get a i j + (1 - w) * np.get b i j)%Q.

Definition weighted_mass (n : nat) (w : Q) (a b : np.ndarray) : Q :=
  np.sum_list ((fun p => weighted_average w a b (fst p) (snd p)) <$> grid_cells n n).

(** The invariant of the belief grid: it sums to 1, or it is the
    degenerate grid of total 0. *)
Definition normalized_or_degenerate (self : BeliefState.t) : Prop :=
  (np.sum (BeliefState.belief self) == 1)%Q \/ (np.sum (BeliefState.belief self) == 0)%Q.

(** The invariant of a [BeliefState]: a square grid of non-negative cells
    that is normalised or degenerate. *)
Definition valid (self : BeliefState.t) : Prop :=
  well_shaped self
  /\ non_negative (Z.to_nat (BeliefState.grid_size self)) (BeliefState.belief self)
  /\ normalized_or_degenerate self.

(** One local observation: position, window size, observed bit. *)
Definition observation : Type := (Z * Z) * Z * bool.

Definition observe_all (self : BeliefState.t) (obs : list observation) : BeliefState.t :=
  foldl (fun s o => BeliefState.update_with_observation s (fst (fst o)) (snd (fst o)) (snd o))
        self obs.

(** What one agent's [action] adds to the cost of the tick: the
    communication cost for a packet, the movement cost for a silent action
    other than stay, nothing for a silent stay. *)
Definition contribution (self : SearchEnv.t) {P : Type} (packet : option P) (action : Z) : Q :=
  match packet with
  | Some _ => SearchEnv.communication_cost self
  | None => if (action =? 0)%Z then 0%Q else SearchEnv.movement_cost self
  end.

Section TickVocabulary.
Context {D P G : Type} `{!DroneLike D P G}.

(** The drone and the packet that each agent's [action] returns, with the
    action it was given. *)
Definition outcomes (self : SearchEnv.t) (drones : list D) (actions : list Z)
  : list (D * option P * Z) :=
  (fun da => (drone_action (fst da) (snd da) (SearchEnv.fire_pos self), snd da))
    <$> zip drones actions.

Definition packets_of (outs : list (D * option P * Z)) : list P :=
  omap (fun o => snd (fst o)) outs.

Definition cost_of (self : SearchEnv.t) (outs : list (D * option P * Z)) : Q :=
  np.sum_list ((fun o => contribution self (snd (fst o)) (snd o)) <$> outs).

(** [drone] stands on the fire: its two coordinates are the fire's. *)
Definition stands_on_fire (self : SearchEnv.t) (drone : D) : Prop :=
  drone_x drone = fst (SearchEnv.fire_pos self)
  /\ drone_y drone = snd (SearchEnv.fire_pos self).

(** The first drone of the list that passes the test of the scan. *)
Definition first_at_fire (self : SearchEnv.t) (drones : list D) : option D :=
  head (filter (fun d => SearchEnv.at_fire self d = true) drones).

(** The parts of what [step] returns. *)
Definition returned (r : (Q * bool) * SearchEnv.t * list D * G) : Q * bool :=
  fst (fst (fst r)).
Definition env_after (r : (Q * bool) * SearchEnv.t * list D * G) : SearchEnv.t :=
  snd (fst (fst r)).
Definition drones_after (r : (Q * bool) * SearchEnv.t * list D * G) : list D :=
  snd (fst r).
Definition rng_after (r : (Q * bool) * SearchEnv.t * list D * G) : G := snd r.

End TickVocabulary.

(** One call on a belief: a local observation or a merge with a peer. *)
Inductive operation : Type :=
| Observe (pos : Z * Z) (window_size : Z) (fire_observed : bool)
| Merge (other : BeliefState.t) (weight : Q).

Definition apply_operation (self : BeliefState.t) (o : operation) : BeliefState.t :=
  match o with
  | Observe pos w observed => BeliefState.update_with_observation self pos w observed
  | Merge other weight => BeliefState.merge_with_other_belief self other weight
  end.

Definition apply_operations (self : BeliefState.t) (ops : list operation) : BeliefState.t :=
  foldl apply_operation self ops.

(** The calls that keep a belief on an [n] by [n] grid meaningful: a
    positive observation comes from the grid with a non-negative window, a
    peer is valid, has the same grid and is weighted in [[0, 1]]. *)
Definition admissible (n : Z) (o : operation) : Prop :=
  match o with
  | Observe pos w true =>
      (0 <= fst pos < n)%Z /\ (0 <= snd pos < n)%Z /\ (0 <= w)%Z
  | Observe _ _ false => True
  | Merge other weight =>
      valid other /\ BeliefState.grid_size other = n /\ (0 <= weight <= 1)%Q
  end.

(** A position of an [n] by [n] grid. *)
Definition on_grid (n : Z) (pos : Z * Z) : Prop :=
  (0 <= fst pos < n)%Z /\ (0 <= snd pos < n)%Z.

(** A drone of [fire_environment.py] taking the actions of a list in turn. *)
Definition fly (self : Drone.t) (fire_pos : Z * Z) (actions : list Z) : Drone.t :=
  foldl (fun s a => fst (Drone.action (P := TelemetryPacket) s a fire_pos)) self actions.

(** The extinguishing time is recorded exactly when the flag is set. *)
Definition time_recorded (self : SearchEnv.t) : Prop :=
  SearchEnv.fire_extinguished self = true <-> is_Some (SearchEnv.time_to_extinguish self).

(** A playground with its two drones, both on the grid. *)
Definition two_on_grid (self : FireSearchEnv.t) : Prop :=
  exists d0 d1, FireSearchEnv.drones self = [d0; d1]
    /\ on_grid (FireSearchEnv.grid_size self) d0
    /\ on_grid (FireSearchEnv.grid_size self) d1.

(** ** Sample data *)

Module Sample.

(** A drone of [fire_environment.py] on a 5 by 5 grid, at (2, 2), with
    window 3; another one in the corner (0, 4). *)
Definition drone : Drone.t := Drone.init 5 3 0 (1 # 20) (2, 2)%Z.
Definition corner_drone : Drone.t := Drone.init 5 3 0 (1 # 20) (0, 4)%Z.

(** The uniform prior on a 5 by 5 grid, and the same after a negative
    observation at the centre. *)
Definition prior : BeliefState.t := BeliefState.init 5.
Definition searched : BeliefState.t :=
  BeliefState.update_with_observation prior (2, 2)%Z 3 false.

(** An environment with the fire at (2, 2) and two agents, the first one
    step below the fire, the second in the far corner. *)
Definition env : SearchEnv.t := SearchEnv.init 5 (2, 2)%Z (1 # 2) (1 # 10).
Definition agent_a : Agent.t := Agent.init 0 5 3 0 (1 # 20) (2, 1)%Z.
Definition agent_b : Agent.t := Agent.init 1 5 3 0 (1 # 20) (4, 4)%Z.

End Sample.

(** More sample data: a belief that has seen the fire from the centre, a
    session of observations and merges, and a flight plan. *)
Module Scenario.

Definition seen : BeliefState.t :=
  BeliefState.update_with_observation Sample.prior (2, 2)%Z 3 true.

Definition session : list operation :=
  [Observe (2, 2)%Z 3 false; Merge Sample.prior (1 # 2);
   Observe (0, 0)%Z 3 true; Observe (4, 4)%Z 3 false].

Definition flight : list Z := [1; 1; 1; 4; 5; 0; 3; 7]%Z.

Definition empty : BeliefState.t := BeliefState.init 0.

(** An agent that stands on the fire of the sample environment. *)
Definition agent_on_fire : Agent.t := Agent.init 2 5 3 (3 # 20) (1 # 20) (2, 2)%Z.

End Scenario.

(** ** Facts about the numpy kernel *)

Section ArrayFacts.

Implicit Types (a b : np.ndarray) (r c i j : nat) (s v w : Q).

Lemma get_cell a i j : np.get a i j = default 0%Q (cell a i j).
Proof. reflexivity. Qed.

Lemma shaped_row r c a i :
  shaped r c a -> (i < r)%nat -> exists row, a !! i = Some row /\ length row = c.
Proof.
  intros [Hlen Hrows] Hi.
  destruct (lookup_lt_is_Some_2 a i) as [row Hrow]; [lia|].
  exists row; split; [done|].
  by apply (Forall_lookup_1 _ _ _ _ Hrows Hrow).
Qed.

Lemma shaped_cell r c a i j :
  shaped r c a -> (i < r)%nat -> (j < c)%nat -> exists v, cell a i j = Some v.
Proof.
  intros Ha Hi Hj. destruct (shaped_row r c a i Ha Hi) as (row & Hrow & Hlen).
  destruct (lookup_lt_is_Some_2 row j) as [v Hv]; [lia|].
  exists v. unfold cell. by rewrite Hrow.
Qed.

Lemma cell_tabulate r c f i j :
  (i < r)%nat -> (j < c)%nat -> cell (tabulate r c f) i j = Some (f i j).
Proof.
  intros Hi Hj. unfold cell, tabulate.
  rewrite list_lookup_fmap, lookup_seq_lt by done. simpl.
  by rewrite list_lookup_fmap, lookup_seq_lt.
Qed.

Lemma shaped_tabulate r c f : shaped r c (tabulate r c f).
Proof.
  split; unfold tabulate.
  - by rewrite length_fmap, length_seq.
  - apply Forall_fmap, Forall_forall. intros i _. simpl.
    by rewrite length_fmap, length_seq.
Qed.

(** A well-shaped array is the table of its cells. *)
Lemma shaped_eq_tabulate r c a : shaped r c a -> a = tabulate r c (np.get a).
Proof.
  intros Ha. apply list_eq. intros i. unfold tabulate.
  rewrite list_lookup_fmap.
  destruct (decide (i < r)%nat) as [Hi|Hi].
  - rewrite lookup_seq_lt by done. simpl.
    destruct (shaped_row r c a i Ha Hi) as (row & Hrow & Hlen).
    rewrite Hrow. f_equal. apply list_eq. intros j.
    rewrite list_lookup_fmap.
    destruct (decide (j < c)%nat) as [Hj|Hj].
    + rewrite lookup_seq_lt by done. simpl.
      unfold np.get. rewrite Hrow. simpl.
      destruct (lookup_lt_is_Some_2 row j) as [v Hv]; [lia|]. by rewrite Hv.
    + rewrite lookup_seq_ge by lia. simpl. apply lookup_ge_None_2. lia.
  - rewrite lookup_seq_ge by lia. simpl. apply lookup_ge_None_2.
    destruct Ha as [-> _]. lia.
Qed.

Lemma shaped_ext r c a b :
  shaped r c a -> shaped r c b ->
  (forall i j, (i < r)%nat -> (j < c)%nat -> cell a i j = cell b i j) -> a = b.
Proof.
  intros Ha Hb Hab.
  rewrite (shaped_eq_tabulate r c a Ha), (shaped_eq_tabulate r c b Hb).
  unfold tabulate. apply list_fmap_ext. intros k i Hk.
  apply lookup_seq in Hk as [-> Hi]. simpl.
  apply list_fmap_ext. intros k' j Hk'. apply lookup_seq in Hk' as [-> Hj]. simpl.
  rewrite !get_cell. by rewrite Hab.
Qed.

(** *** Cells of the elementwise operations *)

Lemma cell_zeros r c i j :
  (i < r)%nat -> (j < c)%nat -> cell (np.zeros r c) i j = Some 0%Q.
Proof.
  intros Hi Hj. unfold cell, np.zeros.
  rewrite lookup_replicate_2 by done. simpl. by rewrite lookup_replicate_2.
Qed.

Lemma cell_ones r c i j :
  (i < r)%nat -> (j < c)%nat -> cell (np.ones r c) i j = Some 1%Q.
Proof.
  intros Hi Hj. unfold cell, np.ones.
  rewrite lookup_replicate_2 by done. simpl. by rewrite lookup_replicate_2.
Qed.

Lemma cell_div a s i j : cell (np.div a s) i j = (fun v => (v / s)%Q) <$> cell a i j.
Proof.
  unfold cell, np.div. rewrite list_lookup_fmap.
  destruct (a !! i) as [row|]; simpl; [|done]. by rewrite list_lookup_fmap.
Qed.

Lemma cell_scale w a i j : cell (np.scale w a) i j = (fun v => (w * v)%Q) <$> cell a i j.
Proof.
  unfold cell, np.scale. rewrite list_lookup_fmap.
  destruct (a !! i) as [row|]; simpl; [|done]. by rewrite list_lookup_fmap.
Qed.

Lemma cell_add a b i j u v :
  cell a i j = Some u -> cell b i j = Some v -> cell (np.add a b) i j = Some (u + v)%Q.
Proof.
  unfold cell, np.add. intros Ha Hb. rewrite lookup_zip_with.
  destruct (a !! i) as [ra|]; simpl in *; [|done].
  destruct (b !! i) as [rb|]; simpl in *; [|done].
  rewrite lookup_zip_with. by rewrite Ha, Hb.
Qed.

Lemma cell_set a i j v i' j' :
  cell (np.set a i j v) i' j' =
  if decide (i = i' /\ j = j') then (fun _ => v) <$> cell a i' j' else cell a i' j'.
Proof.
  unfold cell, np.set. rewrite list_lookup_alter.
  destruct (decide (i = i')) as [->|Hi].
  - destruct (a !! i') as [row|]; simpl.
    + destruct (decide (j = j')) as [->|Hj].
      * rewrite decide_True by done.
        destruct (decide (j' < length row)%nat).
        -- rewrite list_lookup_insert_eq by done.
           destruct (lookup_lt_is_Some_2 row j') as [u ->]; done.
        -- rewrite list_insert_ge by lia. by rewrite lookup_ge_None_2 by lia.
      * rewrite decide_False by (intros [_ ?]; done).
        by rewrite list_lookup_insert_ne.
    + by destruct (decide _).
  - by rewrite decide_False by (intros [? _]; done).
Qed.

(** *** Shapes *)

Lemma shaped_zeros r c : shaped r c (np.zeros r c).
Proof.
  split; unfold np.zeros; [by rewrite length_replicate|].
  apply Forall_replicate. by rewrite length_replicate.
Qed.

Lemma shaped_ones r c : shaped r c (np.ones r c).
Proof.
  split; unfold np.ones; [by rewrite length_replicate|].
  apply Forall_replicate. by rewrite length_replicate.
Qed.

Lemma shaped_div r c a s : shaped r c a -> shaped r c (np.div a s).
Proof.
  intros [Hl Hr]. split; unfold np.div; [by rewrite length_fmap|].
  apply Forall_fmap. eapply Forall_impl; [exact Hr|].
  intros row Hrow. simpl. by rewrite length_fmap.
Qed.

Lemma shaped_scale r c w a : shaped r c a -> shaped r c (np.scale w a).
Proof.
  intros [Hl Hr]. split; unfold np.scale; [by rewrite length_fmap|].
  apply Forall_fmap. eapply Forall_impl; [exact Hr|].
  intros row Hrow. simpl. by rewrite length_fmap.
Qed.

Lemma shaped_add r c a b : shaped r c a -> shaped r c b -> shaped r c (np.add a b).
Proof.
  intros [Hla Hra] [Hlb Hrb]. split; unfold np.add.
  - rewrite length_zip_with. lia.
  - apply Forall_forall. intros row Hrow.
    apply list_elem_of_lookup in Hrow as [i Hi].
    apply lookup_zip_with_Some in Hi as (ra & rb & -> & Ha & Hb).
    rewrite length_zip_with.
    rewrite (Forall_lookup_1 _ _ _ _ Hra Ha), (Forall_lookup_1 _ _ _ _ Hrb Hb). lia.
Qed.

Lemma shaped_set r c a i j v : shaped r c a -> shaped r c (np.set a i j v).
Proof.
  intros [Hl Hr]. split; unfold np.set; [by rewrite length_alter|].
  apply Forall_alter; [done|]. intros row _ Hrow.
  by rewrite length_insert.
Qed.

End ArrayFacts.

(** ** Sums *)

Section SumFacts.

Context {A : Type}.
Implicit Types (f g u : A -> Q) (l : list A) (s w : Q).
Local Open Scope Q_scope.

Lemma sum_list_nil : np.sum_list [] = 0.
Proof. reflexivity. Qed.

Lemma sum_list_cons (v : Q) (k : list Q) : np.sum_list (v :: k) = v + np.sum_list k.
Proof. reflexivity. Qed.

Lemma sum_list_app (l1 l2 : list Q) :
  np.sum_list (l1 ++ l2) == np.sum_list l1 + np.sum_list l2.
Proof.
  induction l1 as [|v l1 IH].
  - rewrite app_nil_l, sum_list_nil. ring.
  - rewrite <- app_comm_cons, !sum_list_cons, IH. ring.
Qed.

Lemma sum_list_ext f g l :
  (forall x, x ∈ l -> f x == g x) -> np.sum_list (f <$> l) == np.sum_list (g <$> l).
Proof.
  induction l as [|x l IH]; intros H; [reflexivity|].
  rewrite !fmap_cons, !sum_list_cons.
  rewrite (H x) by left. rewrite IH; [reflexivity|].
  intros y Hy. apply H. by right.
Qed.

Lemma sum_list_div f s l :
  np.sum_list ((fun x => f x / s) <$> l) == np.sum_list (f <$> l) / s.
Proof.
  induction l as [|x l IH].
  - rewrite !fmap_nil, sum_list_nil. unfold Qdiv. ring.
  - rewrite !fmap_cons, !sum_list_cons, IH. unfold Qdiv. ring.
Qed.

Lemma sum_list_scale w f l :
  np.sum_list ((fun x => w * f x) <$> l) == w * np.sum_list (f <$> l).
Proof.
  induction l as [|x l IH].
  - rewrite !fmap_nil, sum_list_nil. ring.
  - rewrite !fmap_cons, !sum_list_cons, IH. ring.
Qed.

Lemma sum_list_plus f g l :
  np.sum_list ((fun x => f x + g x) <$> l)
  == np.sum_list (f <$> l) + np.sum_list (g <$> l).
Proof.
  induction l as [|x l IH].
  - rewrite !fmap_nil, sum_list_nil. ring.
  - rewrite !fmap_cons, !sum_list_cons, IH. ring.
Qed.

Lemma sum_list_nonneg f l :
  (forall x, x ∈ l -> 0 <= f x) -> 0 <= np.sum_list (f <$> l).
Proof.
  induction l as [|x l IH]; intros H.
  - rewrite fmap_nil, sum_list_nil. lra.
  - rewrite fmap_cons, sum_list_cons.
    assert (0 <= f x) by (apply H; left).
    assert (0 <= np.sum_list (f <$> l)) by (apply IH; intros y Hy; apply H; by right).
    lra.
Qed.

Lemma sum_list_zero f l :
  (forall x, x ∈ l -> 0 <= f x) -> np.sum_list (f <$> l) <= 0 ->
  forall x, x ∈ l -> f x == 0.
Proof.
  induction l as [|x l IH]; intros H Hs y Hy.
  - by apply elem_of_nil in Hy.
  - rewrite fmap_cons, sum_list_cons in Hs.
    assert (0 <= f x) by (apply H; left).
    assert (Hl : forall z, z ∈ l -> 0 <= f z) by (intros z Hz; apply H; by right).
    pose proof (sum_list_nonneg f l Hl).
    apply elem_of_cons in Hy as [->|Hy]; [lra|].
    apply IH; [done|lra|done].
Qed.

Lemma sum_list_filter (P : A -> bool) u l :
  np.sum_list ((fun x => if P x then u x else 0) <$> l)
  == np.sum_list (u <$> filter (fun x => P x = true) l).
Proof.
  induction l as [|x l IH]; [reflexivity|].
  rewrite fmap_cons, sum_list_cons, filter_cons, IH. destruct (P x) eqn:HP.
  - rewrite decide_True by done. by rewrite fmap_cons, sum_list_cons.
  - rewrite decide_False by done. ring.
Qed.

Lemma sum_list_filter_false (P : A -> bool) u l :
  np.sum_list ((fun x => if P x then 0 else u x) <$> l)
  == np.sum_list (u <$> filter (fun x => P x = false) l).
Proof.
  induction l as [|x l IH]; [reflexivity|].
  rewrite fmap_cons, sum_list_cons, filter_cons, IH. destruct (P x) eqn:HP.
  - rewrite decide_False by done. ring.
  - rewrite decide_True by done. by rewrite fmap_cons, sum_list_cons.
Qed.

Lemma sum_list_ones l :
  np.sum_list ((fun _ => 1) <$> l) == inject_Z (Z.of_nat (length l)).
Proof.
  induction l as [|x l IH]; [reflexivity|].
  rewrite fmap_cons, sum_list_cons, IH, length_cons, Nat2Z.inj_succ.
  unfold Z.succ. rewrite inject_Z_plus. ring.
Qed.

End SumFacts.

Section GridSums.

Implicit Types (a b : np.ndarray) (r c i j : nat) (s w : Q).
Local Open Scope Q_scope.

Lemma elem_of_grid_cells r c p :
  p ∈ grid_cells r c <-> (fst p < r)%nat /\ (snd p < c)%nat.
Proof.
  unfold grid_cells. rewrite list_elem_of_bind. split.
  - intros (i & Hp & Hi). apply list_elem_of_fmap in Hp as (j & -> & Hj).
    apply elem_of_seq in Hi, Hj. simpl. lia.
  - intros [Hi Hj]. exists (fst p). split.
    + apply list_elem_of_fmap. exists (snd p). split; [by destruct p|].
      apply elem_of_seq. lia.
    + apply elem_of_seq. lia.
Qed.

Lemma sum_nested (f : nat -> nat -> Q) (li lj : list nat) :
  np.sum ((fun i => f i <$> lj) <$> li)
  == np.sum_list ((fun p => f (fst p) (snd p)) <$> (i ← li; (fun j => (i, j)) <$> lj)).
Proof.
  unfold np.sum. induction li as [|i li IH]; [reflexivity|].
  rewrite bind_cons, fmap_app, sum_list_app, <- IH.
  rewrite !fmap_cons, sum_list_cons.
  assert (E : (fun p : nat * nat => f (fst p) (snd p)) <$> ((fun j => (i, j)) <$> lj)
              = f i <$> lj).
  { rewrite <- list_fmap_compose. by apply list_fmap_ext. }
  rewrite E. reflexivity.
Qed.

(** The sum of a well-shaped array is the sum over the cells of its grid. *)
Lemma sum_cells r c a :
  shaped r c a ->
  np.sum a == np.sum_list ((fun p => np.get a (fst p) (snd p)) <$> grid_cells r c).
Proof.
  intros Ha. transitivity (np.sum (tabulate r c (np.get a))).
  - by rewrite <- (shaped_eq_tabulate r c a Ha).
  - apply sum_nested.
Qed.

Lemma get_in_grid r c a i j :
  shaped r c a -> (i < r)%nat -> (j < c)%nat -> cell a i j = Some (np.get a i j).
Proof.
  intros Ha Hi Hj. destruct (shaped_cell r c a i j Ha Hi Hj) as [v Hv].
  unfold np.get. fold (cell a i j). by rewrite Hv.
Qed.

Lemma get_div r c a s i j :
  shaped r c a -> (i < r)%nat -> (j < c)%nat ->
  np.get (np.div a s) i j = (np.get a i j / s)%Q.
Proof.
  intros Ha Hi Hj. unfold np.get at 1. fold (cell (np.div a s) i j).
  by rewrite cell_div, (get_in_grid r c a i j).
Qed.

Lemma get_scale r c w a i j :
  shaped r c a -> (i < r)%nat -> (j < c)%nat ->
  np.get (np.scale w a) i j = (w * np.get a i j)%Q.
Proof.
  intros Ha Hi Hj. unfold np.get at 1. fold (cell (np.scale w a) i j).
  by rewrite cell_scale, (get_in_grid r c a i j).
Qed.

Lemma get_add r c a b i j :
  shaped r c a -> shaped r c b -> (i < r)%nat -> (j < c)%nat ->
  np.get (np.add a b) i j = (np.get a i j + np.get b i j)%Q.
Proof.
  intros Ha Hb Hi Hj. unfold np.get at 1. fold (cell (np.add a b) i j).
  by rewrite (cell_add a b i j _ _ (get_in_grid r c a i j Ha Hi Hj)
                       (get_in_grid r c b i j Hb Hi Hj)).
Qed.

Lemma sum_div r c a s : shaped r c a -> np.sum (np.div a s) == np.sum a / s.
Proof.
  intros Ha. rewrite (sum_cells r c (np.div a s)) by by apply shaped_div.
  rewrite (sum_cells r c a Ha).
  rewrite <- (sum_list_div (fun p => np.get a (fst p) (snd p))).
  apply sum_list_ext. intros p Hp. apply elem_of_grid_cells in Hp as [Hi Hj].
  by rewrite (get_div r c).
Qed.

(** Dividing by a non-zero total gives total 1. *)
Lemma sum_normalize r c a :
  shaped r c a -> ~ np.sum a == 0 -> np.sum (BeliefState.normalize a) == 1.
Proof.
  intros Ha Hs. unfold BeliefState.normalize. rewrite (sum_div r c a _ Ha).
  by field.
Qed.

(** Arrays with equal cells have equal sums. *)
Lemma sum_ext r c a b :
  shaped r c a -> shaped r c b ->
  (forall i j, (i < r)%nat -> (j < c)%nat -> np.get a i j == np.get b i j) ->
  np.sum a == np.sum b.
Proof.
  intros Ha Hb Hab. rewrite (sum_cells r c a Ha), (sum_cells r c b Hb).
  apply sum_list_ext. intros p Hp. apply elem_of_grid_cells in Hp as [Hi Hj].
  by apply Hab.
Qed.

Lemma sum_nonneg r a : shaped r r a -> non_negative r a -> 0 <= np.sum a.
Proof.
  intros Ha Hn. rewrite (sum_cells r r a Ha). apply sum_list_nonneg.
  intros p Hp. apply elem_of_grid_cells in Hp as [Hi Hj]. by apply Hn.
Qed.

(** Non-negative cells of total at most zero are all zero. *)
Lemma sum_zero_cells r a i j :
  shaped r r a -> non_negative r a -> np.sum a <= 0 ->
  (i < r)%nat -> (j < r)%nat -> np.get a i j == 0.
Proof.
  intros Ha Hn Hs Hi Hj. rewrite (sum_cells r r a Ha) in Hs.
  apply (sum_list_zero (fun p => np.get a (fst p) (snd p)) (grid_cells r r)
           ltac:(intros p Hp; apply elem_of_grid_cells in Hp as [? ?]; by apply Hn)
           Hs (i, j)).
  by apply elem_of_grid_cells.
Qed.

End GridSums.

(** ** The footprint loops *)

Section FillFacts.

Implicit Types (a : np.ndarray) (rows cols : list Z) (v : Q) (i j : nat).

Lemma cell_fill_row a i cols v i' j' :
  (forall k, k ∈ cols -> (0 <= k)%Z) ->
  cell (foldl (fun b k => np.set b i (Z.to_nat k) v) a cols) i' j' =
  if decide (i = i' /\ Z.of_nat j' ∈ cols)
  then (fun _ => v) <$> cell a i' j' else cell a i' j'.
Proof.
  revert a. induction cols as [|k cols IH]; intros a Hpos.
  - simpl. rewrite decide_False; [done|]. intros [_ H]. by apply elem_of_nil in H.
  - simpl. rewrite IH by (intros k' Hk'; apply Hpos, elem_of_cons; by right).
    rewrite cell_set.
    assert (Hk : (0 <= k)%Z) by (apply Hpos, elem_of_cons; by left).
    assert (E : (i = i' /\ Z.of_nat j' ∈ k :: cols) <->
                (i = i' /\ Z.of_nat j' ∈ cols) \/ (i = i' /\ Z.to_nat k = j')).
    { rewrite elem_of_cons. split; [|intros [?|[? <-]]; [tauto|]].
      - intros [? [<-|?]]; [right|tauto]. split; [done|apply Nat2Z.id].
      - split; [done|]. left. by rewrite Z2Nat.id. }
    repeat case_decide; destruct (cell a i' j'); simpl; try done; exfalso; tauto.
Qed.

Lemma cell_fill a rows cols v i' j' :
  (forall k, k ∈ rows -> (0 <= k)%Z) -> (forall k, k ∈ cols -> (0 <= k)%Z) ->
  cell (BeliefState.fill a rows cols v) i' j' =
  if decide (Z.of_nat i' ∈ rows /\ Z.of_nat j' ∈ cols)
  then (fun _ => v) <$> cell a i' j' else cell a i' j'.
Proof.
  unfold BeliefState.fill. intros Hrows Hcols.
  revert a. induction rows as [|k rows IH]; intros a.
  - cbn [foldl]. rewrite decide_False; [done|]. intros [H _]. by apply elem_of_nil in H.
  - cbn [foldl]. rewrite IH by (intros k' Hk'; apply Hrows, elem_of_cons; by right).
    rewrite cell_fill_row by done.
    assert (Hk : (0 <= k)%Z) by (apply Hrows, elem_of_cons; by left).
    assert (E : (Z.of_nat i' ∈ k :: rows /\ Z.of_nat j' ∈ cols) <->
                (Z.of_nat i' ∈ rows /\ Z.of_nat j' ∈ cols)
                \/ (Z.to_nat k = i' /\ Z.of_nat j' ∈ cols)).
    { rewrite elem_of_cons. split; [|intros [?|[<- ?]]; [tauto|]].
      - intros [[<-|?] ?]; [right|tauto]. split; [apply Nat2Z.id|done].
      - split; [|done]. left. by rewrite Z2Nat.id. }
    repeat case_decide; destruct (cell a i' j'); simpl; try done; exfalso; tauto.
Qed.

Lemma shaped_fill r c a rows cols v :
  shaped r c a -> shaped r c (BeliefState.fill a rows cols v).
Proof.
  unfold BeliefState.fill. revert a.
  induction rows as [|k rows IH]; intros a Ha; [done|].
  simpl. apply IH. clear IH. revert a Ha.
  induction cols as [|k' cols IH]; intros a Ha; [done|].
  simpl. apply IH. by apply shaped_set.
Qed.

(** The window is the part of [[c - w/2, c + w/2]] that lies in the grid. *)
Lemma elem_of_window n c w (k : Z) :
  k ∈ BeliefState.window n c w <-> (0 <= k < n /\ c - w / 2 <= k <= c + w / 2)%Z.
Proof.
  unfold BeliefState.window, range. rewrite elem_of_seqZ. lia.
Qed.

Lemma window_nonneg n c w k : k ∈ BeliefState.window n c w -> (0 <= k)%Z.
Proof. rewrite elem_of_window. lia. Qed.

Lemma in_footprint_spec x y w i j :
  in_footprint x y w (i, j) = true <->
  (x - w / 2 <= Z.of_nat i <= x + w / 2 /\ y - w / 2 <= Z.of_nat j <= y + w / 2)%Z.
Proof.
  unfold in_footprint. simpl. rewrite !andb_true_iff, !Z.leb_le. lia.
Qed.

(** The cells of the grid after the two loops. *)
Lemma get_fill n x y w a v i j :
  shaped (Z.to_nat n) (Z.to_nat n) a ->
  (i < Z.to_nat n)%nat -> (j < Z.to_nat n)%nat ->
  np.get (BeliefState.fill a (BeliefState.window n x w) (BeliefState.window n y w) v) i j
  = if in_footprint x y w (i, j) then v else np.get a i j.
Proof.
  intros Ha Hi Hj. unfold np.get at 1.
  fold (cell (BeliefState.fill a (BeliefState.window n x w) (BeliefState.window n y w) v) i j).
  rewrite cell_fill by apply window_nonneg.
  rewrite (get_in_grid _ _ a i j Ha Hi Hj).
  destruct (in_footprint x y w (i, j)) eqn:Hfp.
  - apply in_footprint_spec in Hfp. rewrite decide_True; [done|].
    rewrite !elem_of_window. lia.
  - rewrite decide_False; [done|]. rewrite !elem_of_window. intros H.
    assert (in_footprint x y w (i, j) = true) by (apply in_footprint_spec; lia).
    congruence.
Qed.

(** An agent on the grid with a non-negative window stands in its own
    footprint. *)
Lemma footprint_size_pos n x y w :
  (0 <= x < n)%Z -> (0 <= y < n)%Z -> (0 <= w)%Z ->
  (0 < footprint_size (Z.to_nat n) x y w)%Q.
Proof.
  intros Hx Hy Hw. unfold footprint_size.
  assert (Hin : (Z.to_nat x, Z.to_nat y) ∈ footprint_cells (Z.to_nat n) x y w).
  { unfold footprint_cells. apply list_elem_of_filter. split.
    - apply in_footprint_spec. rewrite !Z2Nat.id by lia.
      pose proof (Z.div_pos w 2 Hw ltac:(lia)). lia.
    - apply elem_of_grid_cells. simpl. lia. }
  destruct (footprint_cells (Z.to_nat n) x y w) as [|p l]; [by apply elem_of_nil in Hin|].
  rewrite length_cons. change 0%Q with (inject_Z 0). rewrite <- Zlt_Qlt. lia.
Qed.

End FillFacts.

(** ** [BeliefState.update_with_observation] *)

Section UpdateFacts.

Local Open Scope Q_scope.
Implicit Types (self : BeliefState.t) (x y w n : Z) (i j : nat).

(** After the loops of the positive branch the grid holds as much mass as
    the footprint has cells. *)
Lemma sum_fill_ones n x y w :
  np.sum (BeliefState.fill (np.zeros (Z.to_nat n) (Z.to_nat n))
            (BeliefState.window n x w) (BeliefState.window n y w) 1)
  == footprint_size (Z.to_nat n) x y w.
Proof.
  rewrite (sum_cells (Z.to_nat n) (Z.to_nat n)) by apply shaped_fill, shaped_zeros.
  unfold footprint_size, footprint_cells.
  rewrite <- sum_list_ones, <- (sum_list_filter (in_footprint x y w) (fun _ => 1)).
  apply sum_list_ext. intros [i j] Hp. apply elem_of_grid_cells in Hp as [Hi Hj].
  simpl in Hi, Hj. cbn [fst snd].
  rewrite (get_fill n x y w) by (done || apply shaped_zeros).
  destruct (in_footprint x y w (i, j)); [reflexivity|].
  unfold np.get. fold (cell (np.zeros (Z.to_nat n) (Z.to_nat n)) i j).
  by rewrite cell_zeros.
Qed.

(** After the loops of the negative branch the grid holds the mass that
    was outside of the footprint. *)
Lemma sum_fill_zeros n x y w (a : np.ndarray) :
  shaped (Z.to_nat n) (Z.to_nat n) a ->
  np.sum (BeliefState.fill a (BeliefState.window n x w) (BeliefState.window n y w) 0)
  == mass_outside (Z.to_nat n) x y w a.
Proof.
  intros Ha.
  rewrite (sum_cells (Z.to_nat n) (Z.to_nat n)) by by apply shaped_fill.
  unfold mass_outside.
  rewrite <- (sum_list_filter_false (in_footprint x y w)
                (fun p => np.get a (fst p) (snd p))).
  apply sum_list_ext. intros [i j] Hp. apply elem_of_grid_cells in Hp as [Hi Hj].
  simpl in Hi, Hj. cbn [fst snd].
  rewrite (get_fill n x y w) by done. reflexivity.
Qed.

(** The 5 by 5 scenario: the belief after a positive observation at
    [(2, 2)] with window 3 does not depend on the prior. *)
Lemma update_fire_observed_5x5 self :
  BeliefState.grid_size self = 5%Z ->
  BeliefState.belief (BeliefState.update_with_observation self (2, 2)%Z 3 true)
  = [[0 # 9; 0 # 9; 0 # 9; 0 # 9; 0 # 9];
     [0 # 9; 1 # 9; 1 # 9; 1 # 9; 0 # 9];
     [0 # 9; 1 # 9; 1 # 9; 1 # 9; 0 # 9];
     [0 # 9; 1 # 9; 1 # 9; 1 # 9; 0 # 9];
     [0 # 9; 0 # 9; 0 # 9; 0 # 9; 0 # 9]].
Proof.
  intros Hn. unfold BeliefState.update_with_observation. rewrite Hn.
  cbn [BeliefState.belief]. by vm_compute.
Qed.

(** C1. A positive observation by an agent on the grid, with a window
    between 1 and the grid size, replaces any prior belief by the uniform
    distribution over the footprint: each footprint cell holds 1/k for k
    the number of footprint cells, every other cell holds 0, the grid sums
    to 1 and [fire_found] is set.  On a 5 by 5 grid, at (2, 2) with
    window 3, the cells of {1,2,3} x {1,2,3} hold 1/9 and the others 0. *)
Theorem update_fire_observed_uniform :
  (forall self x y w,
     let n := BeliefState.grid_size self in
     let self' := BeliefState.update_with_observation self (x, y) w true in
     let k := footprint_size (Z.to_nat n) x y w in
     (1 <= n)%Z -> (0 <= x < n)%Z -> (0 <= y < n)%Z -> (1 <= w <= n)%Z ->
     0 < k
     /\ (forall i j, (i < Z.to_nat n)%nat -> (j < Z.to_nat n)%nat ->
           np.get (BeliefState.belief self') i j
           == if in_footprint x y w (i, j) then 1 / k else 0)
     /\ np.sum (BeliefState.belief self') == 1
     /\ BeliefState.fire_found self' = true)
  /\ (forall self i j,
        BeliefState.grid_size self = 5%Z -> (i < 5)%nat -> (j < 5)%nat ->
        np.get (BeliefState.belief
                  (BeliefState.update_with_observation self (2, 2)%Z 3 true)) i j
        == if (1 <=? i)%nat && (i <=? 3)%nat && (1 <=? j)%nat && (j <=? 3)%nat
           then 1 # 9 else 0).
Proof.
  split.
  - intros self x y w n self' k Hn Hx Hy Hw.
    assert (Hk : 0 < k) by (apply footprint_size_pos; lia).
    pose proof (sum_fill_ones n x y w) as Hsum. fold k in Hsum.
    set (b1 := BeliefState.fill (np.zeros (Z.to_nat n) (Z.to_nat n))
                 (BeliefState.window n x w) (BeliefState.window n y w) 1) in *.
    assert (Hb1 : shaped (Z.to_nat n) (Z.to_nat n) b1) by apply shaped_fill, shaped_zeros.
    assert (Hbelief : BeliefState.belief self' = BeliefState.normalize b1) by reflexivity.
    repeat split; [done| |..].
    + intros i j Hi Hj. rewrite Hbelief. unfold BeliefState.normalize.
      rewrite (get_div _ _ b1 _ i j Hb1 Hi Hj), Hsum.
      unfold b1. rewrite (get_fill n x y w) by (done || apply shaped_zeros).
      destruct (in_footprint x y w (i, j)); [reflexivity|].
      unfold np.get. fold (cell (np.zeros (Z.to_nat n) (Z.to_nat n)) i j).
      rewrite cell_zeros by done. simpl. field. lra.
    + rewrite Hbelief. apply (sum_normalize _ _ b1 Hb1). rewrite Hsum. lra.
  - intros self i j Hn Hi Hj. rewrite (update_fire_observed_5x5 self Hn).
    do 5 (destruct i as [|i]; [do 5 (destruct j as [|j]; [by vm_compute|]); lia|]).
    lia.
Qed.

(** C3. A negative observation zeroes the footprint; when mass remains
    outside of it, every cell is divided by that mass and the grid sums
    to 1; when none remains the grid is left all zero, without
    renormalisation or new prior; [fire_found] and [fire_location] keep
    their values. *)
Theorem update_no_fire_eliminates self x y w :
  let n := Z.to_nat (BeliefState.grid_size self) in
  let self' := BeliefState.update_with_observation self (x, y) w false in
  let m := mass_outside n x y w (BeliefState.belief self) in
  well_shaped self -> non_negative n (BeliefState.belief self) ->
  (0 < m ->
     (forall i j, (i < n)%nat -> (j < n)%nat ->
        np.get (BeliefState.belief self') i j
        == if in_footprint x y w (i, j) then 0
           else np.get (BeliefState.belief self) i j / m)
     /\ np.sum (BeliefState.belief self') == 1)
  /\ (m == 0 ->
       (forall i j, (i < n)%nat -> (j < n)%nat ->
          np.get (BeliefState.belief self') i j == 0)
       /\ np.sum (BeliefState.belief self') == 0)
  /\ 0 <= m
  /\ BeliefState.fire_found self' = BeliefState.fire_found self
  /\ BeliefState.fire_location self' = BeliefState.fire_location self.
Proof.
  intros n self' m Hshape Hpos.
  pose proof (sum_fill_zeros (BeliefState.grid_size self) x y w _ Hshape) as Hsum.
  fold n m in Hsum.
  set (b1 := BeliefState.fill (BeliefState.belief self)
               (BeliefState.window (BeliefState.grid_size self) x w)
               (BeliefState.window (BeliefState.grid_size self) y w) 0) in *.
  assert (Hb1 : shaped n n b1) by by apply shaped_fill.
  assert (Hget : forall i j, (i < n)%nat -> (j < n)%nat ->
            np.get b1 i j = if in_footprint x y w (i, j) then 0
                            else np.get (BeliefState.belief self) i j).
  { intros i j Hi Hj. unfold b1. by rewrite (get_fill _ x y w). }
  assert (Hpos1 : non_negative n b1).
  { intros i j Hi Hj. rewrite Hget by done.
    destruct (in_footprint x y w (i, j)); [lra|by apply Hpos]. }
  assert (Hbelief : BeliefState.belief self' = BeliefState.normalize_if_positive b1)
    by reflexivity.
  assert (Hm : 0 <= m) by (rewrite <- Hsum; by apply (sum_nonneg n b1)).
  unfold BeliefState.normalize_if_positive in Hbelief.
  repeat split; try done.
  - intros i j Hi Hj. rewrite Hbelief.
    destruct (Qlt_le_dec 0 (np.sum b1)) as [Hlt|Hle]; [|lra].
    unfold BeliefState.normalize. rewrite (get_div n n) by done.
    rewrite Hsum, Hget by done.
    destruct (in_footprint x y w (i, j)); [|reflexivity]. field. lra.
  - rewrite Hbelief. destruct (Qlt_le_dec 0 (np.sum b1)) as [Hlt|Hle]; [|lra].
    apply (sum_normalize n n b1 Hb1). lra.
  - intros i j Hi Hj. rewrite Hbelief.
    destruct (Qlt_le_dec 0 (np.sum b1)) as [Hlt|Hle]; [lra|].
    by apply (sum_zero_cells n).
  - rewrite Hbelief. destruct (Qlt_le_dec 0 (np.sum b1)) as [Hlt|Hle]; lra.
Qed.

End UpdateFacts.

(** ** [BeliefState.merge_with_other_belief] *)

Section MergeFacts.

Local Open Scope Q_scope.
Implicit Types (self other : BeliefState.t) (weight : Q) (i j n : nat).

(** The array that the averaging branch computes before renormalising. *)
Lemma get_average n weight (a b : np.ndarray) i j :
  shaped n n a -> shaped n n b -> (i < n)%nat -> (j < n)%nat ->
  np.get (np.add (np.scale weight a) (np.scale (1 - weight) b)) i j
  = weighted_average weight a b i j.
Proof.
  intros Ha Hb Hi Hj.
  rewrite (get_add n n) by (done || by apply shaped_scale).
  by rewrite !(get_scale n n).
Qed.

Lemma sum_average n weight (a b : np.ndarray) :
  shaped n n a -> shaped n n b ->
  np.sum (np.add (np.scale weight a) (np.scale (1 - weight) b))
  == weighted_mass n weight a b.
Proof.
  intros Ha Hb. rewrite (sum_cells n n) by by apply shaped_add; apply shaped_scale.
  unfold weighted_mass. apply sum_list_ext.
  intros [i j] Hp. apply elem_of_grid_cells in Hp as [Hi Hj]. cbn [fst snd] in *.
  by rewrite (get_average n).
Qed.

(** C2. When the peer has found the fire its belief is adopted as it is,
    with [fire_found] and the peer's [fire_location], whatever this
    belief held; otherwise the new belief is the weighted average of the
    two grids, divided by its total when that is positive and left as
    computed when it is not. *)
Theorem merge_adopts_or_averages self other weight :
  let n := Z.to_nat (BeliefState.grid_size self) in
  let merged := BeliefState.merge_with_other_belief self other weight in
  let a := BeliefState.belief self in
  let b := BeliefState.belief other in
  let total := weighted_mass n weight a b in
  shaped n n a -> shaped n n b -> 0 <= weight <= 1 ->
  (BeliefState.fire_found other = true ->
     BeliefState.belief merged = b
     /\ BeliefState.fire_found merged = true
     /\ BeliefState.fire_location merged = BeliefState.fire_location other)
  /\ (BeliefState.fire_found other = false ->
      (0 < total ->
         (forall i j, (i < n)%nat -> (j < n)%nat ->
            np.get (BeliefState.belief merged) i j
            == weighted_average weight a b i j / total)
         /\ np.sum (BeliefState.belief merged) == 1)
      /\ (total <= 0 ->
          forall i j, (i < n)%nat -> (j < n)%nat ->
            np.get (BeliefState.belief merged) i j = weighted_average weight a b i j)).
Proof.
  intros n merged a b total Ha Hb Hw.
  unfold merged, BeliefState.merge_with_other_belief. split.
  - intros ->. by cbn.
  - intros ->. cbn [BeliefState.belief]. fold a b.
    pose proof (sum_average n weight a b Ha Hb) as Hsum. fold total in Hsum.
    set (avg := np.add (np.scale weight a) (np.scale (1 - weight) b)) in *.
    assert (Havg : shaped n n avg) by by apply shaped_add; apply shaped_scale.
    unfold BeliefState.normalize_if_positive.
    destruct (Qlt_le_dec 0 (np.sum avg)) as [Hlt|Hle]; (split; [intros Ht|intros Ht]);
      try lra.
    + split.
      * intros i j Hi Hj. unfold BeliefState.normalize.
        rewrite (get_div n n) by done. rewrite Hsum.
        unfold avg. by rewrite (get_average n).
      * apply (sum_normalize n n avg Havg). lra.
    + intros i j Hi Hj. unfold avg. by rewrite (get_average n).
Qed.

(** C9. Merging a belief with an exact copy of itself leaves every cell
    of the grid unchanged, for any weight. *)
Theorem merge_with_copy_is_identity self weight i j :
  let n := Z.to_nat (BeliefState.grid_size self) in
  well_shaped self -> normalized_or_degenerate self -> 0 <= weight <= 1 ->
  (i < n)%nat -> (j < n)%nat ->
  np.get (BeliefState.belief (BeliefState.merge_with_other_belief self self weight)) i j
  == np.get (BeliefState.belief self) i j.
Proof.
  intros n Hshape Hinv Hw Hi Hj.
  unfold BeliefState.merge_with_other_belief.
  destruct (BeliefState.fire_found self); [reflexivity|].
  cbn [BeliefState.belief]. set (a := BeliefState.belief self) in *.
  set (avg := np.add (np.scale weight a) (np.scale (1 - weight) a)).
  assert (Havg : shaped n n avg) by by apply shaped_add; apply shaped_scale.
  assert (Hcell : forall i j, (i < n)%nat -> (j < n)%nat -> np.get avg i j == np.get a i j).
  { intros i' j' Hi' Hj'. unfold avg. rewrite (get_average n) by done.
    unfold weighted_average. ring. }
  assert (Hsum : np.sum avg == np.sum a) by by apply (sum_ext n n).
  unfold BeliefState.normalize_if_positive.
  destruct (Qlt_le_dec 0 (np.sum avg)) as [Hlt|Hle]; [|by apply Hcell].
  unfold BeliefState.normalize. rewrite (get_div n n) by done.
  rewrite Hcell by done. unfold normalized_or_degenerate in Hinv. fold a in Hinv.
  destruct Hinv as [H1|H0]; [|lra].
  rewrite Hsum, H1. field.
Qed.

End MergeFacts.

(** ** The invariant of the belief grid *)

Section InvariantFacts.

Local Open Scope Q_scope.
Implicit Types (self other : BeliefState.t) (b : np.ndarray) (n : nat).

Lemma length_cells_of (rows : list nat) c :
  length (i ← rows; (fun j => (i, j)) <$> seq 0 c) = (length rows * c)%nat.
Proof.
  induction rows as [|i rows IH]; [done|].
  rewrite bind_cons, length_app, length_fmap, length_seq, IH. simpl. lia.
Qed.

Lemma length_grid_cells r c : length (grid_cells r c) = (r * c)%nat.
Proof. unfold grid_cells. by rewrite length_cells_of, length_seq. Qed.

(** Conditional renormalisation keeps shape and sign, and leaves a grid
    that sums to 1 or to 0. *)
Lemma normalize_if_positive_valid n b :
  shaped n n b -> non_negative n b ->
  shaped n n (BeliefState.normalize_if_positive b)
  /\ non_negative n (BeliefState.normalize_if_positive b)
  /\ (np.sum (BeliefState.normalize_if_positive b) == 1
      \/ np.sum (BeliefState.normalize_if_positive b) == 0).
Proof.
  intros Hb Hpos. unfold BeliefState.normalize_if_positive.
  destruct (Qlt_le_dec 0 (np.sum b)) as [Hlt|Hle].
  - split_and!.
    + by apply shaped_div.
    + intros i j Hi Hj. unfold BeliefState.normalize. rewrite (get_div n n) by done.
      apply Qle_shift_div_l; [done|]. specialize (Hpos i j Hi Hj). lra.
    + left. apply (sum_normalize n n b Hb). lra.
  - split_and!; [done|done|]. right.
    pose proof (sum_nonneg n b Hb Hpos). lra.
Qed.

Lemma valid_init (grid_size : Z) : (0 <= grid_size)%Z -> valid (BeliefState.init grid_size).
Proof.
  intros Hn. unfold valid, well_shaped, normalized_or_degenerate, BeliefState.init.
  cbn [BeliefState.grid_size BeliefState.belief].
  set (n := Z.to_nat grid_size).
  assert (Hones : shaped n n (np.ones n n)) by apply shaped_ones.
  assert (Hget : forall i j, (i < n)%nat -> (j < n)%nat -> np.get (np.ones n n) i j = 1).
  { intros i j Hi Hj. unfold np.get. fold (cell (np.ones n n) i j). by rewrite cell_ones. }
  split_and!.
  - by apply shaped_div.
  - intros i j Hi Hj. rewrite (get_div n n), Hget by done.
    assert (0 < inject_Z (grid_size * grid_size)).
    { change 0 with (inject_Z 0). rewrite <- Zlt_Qlt. unfold n in Hi. nia. }
    apply Qle_shift_div_l; [done|lra].
  - destruct (decide (grid_size = 0%Z)) as [->|Hne]; [by right|left].
    rewrite (sum_div n n) by done.
    assert (Hsum : np.sum (np.ones n n) == inject_Z (grid_size * grid_size)).
    { rewrite (sum_cells n n) by done.
      rewrite (sum_list_ext _ (fun _ => 1)).
      - rewrite sum_list_ones, length_grid_cells. unfold n.
        rewrite Nat2Z.inj_mul, Z2Nat.id by done. reflexivity.
      - intros p Hp. apply elem_of_grid_cells in Hp as [Hi Hj]. by rewrite Hget. }
    rewrite Hsum. field.
    change 0 with (inject_Z 0). rewrite inject_Z_injective. nia.
Qed.

Lemma valid_update_observed self x y w :
  (0 <= x < BeliefState.grid_size self)%Z -> (0 <= y < BeliefState.grid_size self)%Z ->
  (0 <= w)%Z ->
  valid (BeliefState.update_with_observation self (x, y) w true).
Proof.
  intros Hx Hy Hw. unfold valid, well_shaped, normalized_or_degenerate.
  cbn [BeliefState.update_with_observation BeliefState.grid_size BeliefState.belief].
  set (n := BeliefState.grid_size self).
  pose proof (footprint_size_pos n x y w Hx Hy Hw) as Hk.
  pose proof (sum_fill_ones n x y w) as Hsum.
  set (b1 := BeliefState.fill (np.zeros (Z.to_nat n) (Z.to_nat n))
               (BeliefState.window n x w) (BeliefState.window n y w) 1) in *.
  assert (Hb1 : shaped (Z.to_nat n) (Z.to_nat n) b1) by apply shaped_fill, shaped_zeros.
  split_and!.
  - by apply shaped_div.
  - intros i j Hi Hj. unfold BeliefState.normalize. rewrite (get_div _ _ b1) by done.
    apply Qle_shift_div_l; [lra|]. unfold b1.
    rewrite (get_fill n x y w) by (done || apply shaped_zeros).
    destruct (in_footprint x y w (i, j)); [lra|].
    unfold np.get. fold (cell (np.zeros (Z.to_nat n) (Z.to_nat n)) i j).
    rewrite cell_zeros by done. simpl. lra.
  - left. apply (sum_normalize _ _ b1 Hb1). lra.
Qed.

Lemma valid_update_unobserved self x y w :
  valid self -> valid (BeliefState.update_with_observation self (x, y) w false).
Proof.
  intros (Hshape & Hpos & _). unfold valid, well_shaped, normalized_or_degenerate.
  cbn [BeliefState.update_with_observation BeliefState.grid_size BeliefState.belief].
  apply normalize_if_positive_valid; [by apply shaped_fill|].
  intros i j Hi Hj. rewrite (get_fill _ x y w) by done.
  destruct (in_footprint x y w (i, j)); [lra|by apply Hpos].
Qed.

Lemma valid_merge self other weight :
  valid self -> valid other ->
  BeliefState.grid_size other = BeliefState.grid_size self -> 0 <= weight <= 1 ->
  valid (BeliefState.merge_with_other_belief self other weight).
Proof.
  intros (Hshape & Hpos & _) (Hshape' & Hpos' & Hnorm') Hsize Hw.
  unfold well_shaped in Hshape'. rewrite Hsize in Hshape', Hpos'.
  unfold valid, well_shaped, normalized_or_degenerate, BeliefState.merge_with_other_belief.
  destruct (BeliefState.fire_found other);
    cbn [BeliefState.grid_size BeliefState.belief]; [done|].
  set (n := Z.to_nat (BeliefState.grid_size self)) in *.
  apply normalize_if_positive_valid; [by apply shaped_add; apply shaped_scale|].
  intros i j Hi Hj. rewrite (get_average n) by done. unfold weighted_average.
  specialize (Hpos i j Hi Hj). specialize (Hpos' i j Hi Hj). nra.
Qed.

End InvariantFacts.

(** ** The frame of [fire_location] *)

Section FrameFacts.

Lemma update_fire_location self pos w observed :
  BeliefState.fire_location (BeliefState.update_with_observation self pos w observed)
  = BeliefState.fire_location self.
Proof.
  unfold BeliefState.update_with_observation. destruct pos.
  by destruct observed.
Qed.

Lemma observe_all_fire_location (obs : list observation) self :
  BeliefState.fire_location (observe_all self obs) = BeliefState.fire_location self.
Proof.
  revert self. induction obs as [|o obs IH]; intros self; [done|].
  unfold observe_all in *. cbn [foldl]. rewrite IH. apply update_fire_location.
Qed.

(** C10. No sequence of local observation updates changes
    [fire_location]: it keeps its value, [None] from construction, also
    through an update that sets [fire_found]; a merge changes it exactly
    when the peer has found the fire, to the peer's value. *)
Theorem fire_location_frame :
  (forall self (obs : list observation),
     BeliefState.fire_location (observe_all self obs) = BeliefState.fire_location self)
  /\ (forall grid_size (obs : list observation),
        BeliefState.fire_location (observe_all (BeliefState.init grid_size) obs) = None)
  /\ (forall self pos w,
        let self' := BeliefState.update_with_observation self pos w true in
        BeliefState.fire_found self' = true
        /\ BeliefState.fire_location self' = BeliefState.fire_location self)
  /\ (forall self other weight,
        BeliefState.fire_location (BeliefState.merge_with_other_belief self other weight)
        = if BeliefState.fire_found other
          then BeliefState.fire_location other
          else BeliefState.fire_location self).
Proof.
  repeat split.
  - intros. apply observe_all_fire_location.
  - intros. by rewrite observe_all_fire_location.
  - by destruct pos.
  - apply update_fire_location.
  - intros self other weight. unfold BeliefState.merge_with_other_belief.
    by destruct (BeliefState.fire_found other).
Qed.

End FrameFacts.

(** ** [BeliefState.get_most_likely_location] *)

Section ArgmaxFacts.

Local Open Scope Q_scope.
Implicit Types (l : list Q) (a : np.ndarray).

(** The scan keeps the running maximum, or moves to the first later
    entry that beats every entry before it and is not beaten after it. *)
Lemma argmax_from_spec l : forall best_i best i,
  let m := np.argmax_from best_i best i l in
  (m = best_i /\ forall k v, l !! k = Some v -> v <= best)
  \/ (exists k v, m = (i + k)%nat /\ l !! k = Some v /\ best < v
        /\ (forall k' v', l !! k' = Some v' -> v' <= v)
        /\ (forall k' v', (k' < k)%nat -> l !! k' = Some v' -> v' < v)).
Proof.
  induction l as [|x l IH]; intros best_i best i; cbn zeta.
  - left. split; [done|]. intros k v H. by rewrite lookup_nil in H.
  - cbn [np.argmax_from]. destruct (Qlt_le_dec best x) as [Hlt|Hle].
    + right. destruct (IH i x (S i)) as [[Hm Hall]|(k & v & Hm & Hk & Hv & Hall & Hbefore)].
      * exists 0%nat, x. split_and!; [lia|done|done| |].
        -- intros [|k'] v' H; simpl in H; [injection H as <-; lra|by eapply Hall].
        -- intros k' v' Hk'. lia.
      * exists (S k), v. split_and!; [lia|done|lra| |].
        -- intros [|k'] v' H; simpl in H; [injection H as <-; lra|by eapply Hall].
        -- intros [|k'] v' Hk' H; simpl in H; [injection H as <-; lra|].
           eapply Hbefore; [|done]. lia.
    + destruct (IH best_i best (S i)) as [[Hm Hall]|(k & v & Hm & Hk & Hv & Hall & Hbefore)].
      * left. split; [done|].
        intros [|k'] v' H; simpl in H; [injection H as <-; lra|by eapply Hall].
      * right. exists (S k), v. split_and!; [lia|done|lra| |].
        -- intros [|k'] v' H; simpl in H; [injection H as <-; lra|by eapply Hall].
        -- intros [|k'] v' Hk' H; simpl in H; [injection H as <-; lra|].
           eapply Hbefore; [|done]. lia.
Qed.

(** [np.argmax] on a non-empty list: the first index of the maximum. *)
Lemma argmax_list_spec l :
  l <> [] ->
  exists m vm, np.argmax_list l = Some m /\ l !! m = Some vm
    /\ (forall k v, l !! k = Some v -> v <= vm)
    /\ (forall k v, (k < m)%nat -> l !! k = Some v -> v < vm).
Proof.
  destruct l as [|x l]; [done|]. intros _. cbn [np.argmax_list].
  destruct (argmax_from_spec l 0%nat x 1%nat)
    as [[Hm Hall]|(k & v & Hm & Hk & Hv & Hall & Hbefore)].
  - exists 0%nat, x. rewrite Hm. split_and!; [done|done| |].
    + intros [|k] v H; simpl in H; [injection H as <-; lra|by eapply Hall].
    + intros k v Hk. lia.
  - exists (S k), v. rewrite Hm. split_and!; [done|done| |].
    + intros [|k'] v' H; simpl in H; [injection H as <-; lra|by eapply Hall].
    + intros [|k'] v' Hk' H; simpl in H; [injection H as <-; lra|].
      eapply Hbefore; [|done]. lia.
Qed.

(** Row-major flattening: cell [(i, j)] is entry [i * c + j]. *)
Lemma lookup_flatten r c a i j :
  shaped r c a -> (j < c)%nat -> np.flatten a !! (i * c + j)%nat = cell a i j.
Proof.
  unfold np.flatten, cell. revert r i.
  induction a as [|row a IH]; intros r i [Hlen Hrows] Hj.
  - simpl. by rewrite lookup_nil.
  - apply Forall_cons in Hrows as [Hrow Hrows]. simpl.
    destruct i as [|i].
    + simpl. rewrite lookup_app_l by lia. done.
    + rewrite lookup_app_r by (rewrite Hrow; lia).
      replace (S i * c + j - length row)%nat with (i * c + j)%nat by (rewrite Hrow; lia).
      by apply (IH (length a)).
Qed.

Lemma length_flatten r c a : shaped r c a -> length (np.flatten a) = (r * c)%nat.
Proof.
  unfold np.flatten. revert r.
  induction a as [|row a IH]; intros r [Hlen Hrows]; simpl in *; [by subst|].
  apply Forall_cons in Hrows as [Hrow Hrows].
  rewrite length_app, (IH (length a)) by done. subst r. rewrite Hrow. lia.
Qed.

Lemma shape_shaped r c a : shaped r c a -> (0 < r)%nat -> np.shape a = (r, c).
Proof.
  intros [Hlen Hrows] Hr. unfold np.shape. destruct a as [|row a]; simpl in *; [lia|].
  apply Forall_cons in Hrows as [-> _]. by rewrite Hlen.
Qed.

(** C8. The most likely location is a cell of maximum probability, and
    among the cells that tie for the maximum it is the first one in
    row-major order: no cell holds more, and every cell that holds as
    much comes no earlier. *)
Theorem most_likely_location_first_max self :
  let n := Z.to_nat (BeliefState.grid_size self) in
  let b := BeliefState.belief self in
  well_shaped self -> (1 <= BeliefState.grid_size self)%Z ->
  exists r c,
    BeliefState.get_most_likely_location self = Some (r, c)
    /\ (r < n)%nat /\ (c < n)%nat
    /\ (forall i j, (i < n)%nat -> (j < n)%nat -> np.get b i j <= np.get b r c)
    /\ (forall i j, (i < n)%nat -> (j < n)%nat ->
          np.get b i j == np.get b r c -> row_major_le (r, c) (i, j)).
Proof.
  intros n b Hshape Hn. fold n b in Hshape.
  assert (Hpos : (0 < n)%nat) by (unfold n; lia).
  pose proof (length_flatten n n b Hshape) as Hlen.
  destruct (argmax_list_spec (np.flatten b)) as (m & vm & Hm & Hvm & Hmax & Hfirst).
  { intros Hnil. rewrite Hnil in Hlen. simpl in Hlen. nia. }
  assert (Hmlt : (m < n * n)%nat) by (rewrite <- Hlen; by eapply lookup_lt_Some).
  pose proof (Nat.div_mod_eq m n) as Hdm.
  assert (Hc : (m mod n < n)%nat) by (apply Nat.mod_upper_bound; lia).
  assert (Hr : (m / n < n)%nat) by (apply Nat.Div0.div_lt_upper_bound; lia).
  assert (Hflat : forall i j, (i < n)%nat -> (j < n)%nat ->
            np.flatten b !! (i * n + j)%nat = Some (np.get b i j)).
  { intros i j Hi Hj. rewrite (lookup_flatten n n) by done. by apply (get_in_grid n n). }
  assert (Hbest : np.get b (m / n) (m mod n) = vm).
  { pose proof (Hflat (m / n)%nat (m mod n)%nat Hr Hc) as H.
    replace (m / n * n + m mod n)%nat with m in H by lia. congruence. }
  exists (m / n)%nat, (m mod n)%nat. split_and!; [|done|done| |].
  - unfold BeliefState.get_most_likely_location, np.argmax. fold b. rewrite Hm. simpl.
    by rewrite (shape_shaped n n).
  - intros i j Hi Hj. rewrite Hbest. by eapply Hmax, Hflat.
  - intros i j Hi Hj Heq. rewrite Hbest in Heq.
    destruct (decide (i * n + j < m)%nat) as [Hlt|Hge].
    + pose proof (Hfirst _ _ Hlt (Hflat i j Hi Hj)). lra.
    + unfold row_major_le. cbn [fst snd]. nia.
Qed.

End ArgmaxFacts.

(** ** [Drone.action] *)

Section DroneFacts.

Context {P : Type}.
Implicit Types (self : Drone.t) (action : Z) (fire_pos : Z * Z).

Lemma action_position self action fire_pos :
  Drone.position (fst (Drone.action (P := P) self action fire_pos))
  = Drone.move self action.
Proof. reflexivity. Qed.

(** C7. An action taken on the grid leaves the drone on the grid: a move
    is clamped at the border and never wraps, so that a move against the
    border leaves the coordinate at 0 or at [grid_size - 1]. *)
Theorem action_stays_on_grid self action fire_pos :
  let n := Drone.grid_size self in
  let self' := fst (Drone.action (P := P) self action fire_pos) in
  (0 <= Drone.x self < n)%Z -> (0 <= Drone.y self < n)%Z -> (0 <= action <= 5)%Z ->
  (0 <= Drone.x self' < n)%Z /\ (0 <= Drone.y self' < n)%Z
  /\ (action = 1%Z -> Drone.y self = (n - 1)%Z -> Drone.y self' = (n - 1)%Z)
  /\ (action = 2%Z -> Drone.y self = 0%Z -> Drone.y self' = 0%Z)
  /\ (action = 3%Z -> Drone.x self = 0%Z -> Drone.x self' = 0%Z)
  /\ (action = 4%Z -> Drone.x self = (n - 1)%Z -> Drone.x self' = (n - 1)%Z).
Proof.
  intros n self' Hx Hy Ha. unfold self', Drone.x, Drone.y in *.
  rewrite action_position. unfold Drone.move, Drone.x, Drone.y. fold n.
  destruct (Z.eqb_spec action 1); [subst; cbn [fst snd]; lia|].
  destruct (Z.eqb_spec action 2); [subst; cbn [fst snd]; lia|].
  destruct (Z.eqb_spec action 3); [subst; cbn [fst snd]; lia|].
  destruct (Z.eqb_spec action 4); [subst; cbn [fst snd]; lia|].
  cbn [fst snd]. lia.
Qed.

(** [action] as it is written: it ends in [return None] on every path, so
    nothing is returned whatever the action; the drone senses at its new
    position, advances its clock by [dt] and logs its state. *)
Theorem action_returns_nothing self action fire_pos :
  let self' := fst (Drone.action (P := P) self action fire_pos) in
  snd (Drone.action (P := P) self action fire_pos) = None
  /\ Drone.position self' = Drone.move self action
  /\ Drone.fire_found self' = Drone.observe self' fire_pos
  /\ Drone.time self' = (Drone.time self + Drone.dt self)%Q
  /\ Drone.history self' = Drone.history self ++ [Drone.state self'].
Proof. by split_and!. Qed.

End DroneFacts.

(** C6. The code departs from its own description on communicate: the
    docstring of [action] lists 5 as communicate and [SearchEnv.step] reads
    the packet that [action] returns, yet the sample drone told to
    communicate returns [None], no packet, and is left exactly as stay
    leaves it. *)
Lemma action_communicate_no_packet :
  snd (Drone.action (P := TelemetryPacket) Sample.drone 5 (2, 2)%Z) = None
  /\ (~ exists p : TelemetryPacket,
        snd (Drone.action Sample.drone 5 (2, 2)%Z) = Some p)
  /\ fst (Drone.action (P := TelemetryPacket) Sample.drone 5 (2, 2)%Z)
     = fst (Drone.action (P := TelemetryPacket) Sample.drone 0 (2, 2)%Z).
Proof.
  split_and!; [reflexivity| |reflexivity].
  intros [p Hp]. discriminate Hp.
Qed.

(** ** [SearchEnv.step] *)

Section StepFacts.

Context {D P G : Type} `{!DroneLike D P G}.
Local Open Scope Q_scope.
Implicit Types (self : SearchEnv.t) (drones : list D) (actions : list Z) (g : G).

(** *** The acting loop *)

Lemma act_fold self (das : list (D * Z)) acted packets cost comms :
  let outs := (fun da => (drone_action (fst da) (snd da) (SearchEnv.fire_pos self), snd da))
                <$> das in
  let r := foldl (SearchEnv.act_one self) (acted, packets, cost, comms) das in
  fst (fst (fst r)) = acted ++ ((fun o => fst (fst o)) <$> outs)
  /\ snd (fst (fst r)) = packets ++ packets_of outs
  /\ snd (fst r) == cost + cost_of self outs
  /\ snd r = (comms + Z.of_nat (length (packets_of outs)))%Z.
Proof.
  revert acted packets cost comms.
  induction das as [|[d a] das IH]; intros acted packets cost comms; cbn zeta.
  - cbn. rewrite !app_nil_r. split_and!; [done|done|ring|lia].
  - cbn [foldl]. rewrite fmap_cons. cbn [fst snd].
    unfold packets_of, cost_of. rewrite fmap_cons. cbn [fst snd omap list_omap].
    destruct (drone_action d a (SearchEnv.fire_pos self)) as [d' [p|]] eqn:Hact;
      cbn [fst snd contribution].
    + assert (E : SearchEnv.act_one self (acted, packets, cost, comms) (d, a)
                  = (acted ++ [d'], packets ++ [p],
                     cost + SearchEnv.communication_cost self, (comms + 1)%Z)).
      { unfold SearchEnv.act_one. by rewrite Hact. }
      rewrite E. clear E.
      destruct (IH (acted ++ [d']) (packets ++ [p])
                  (cost + SearchEnv.communication_cost self) (comms + 1)%Z)
        as (H1 & H2 & H3 & H4).
      rewrite H1, H2, H3, H4. unfold packets_of, cost_of.
      rewrite <- !app_assoc, fmap_cons, sum_list_cons, length_cons.
      cbn [app fst snd contribution]. split_and!; [done|done|ring|lia].
    + destruct (Z.eqb_spec a 0) as [->|Hne].
      * assert (E : SearchEnv.act_one self (acted, packets, cost, comms) (d, 0%Z)
                    = (acted ++ [d'], packets, cost, comms)).
        { unfold SearchEnv.act_one. by rewrite Hact. }
        rewrite E. clear E.
        destruct (IH (acted ++ [d']) packets cost comms) as (H1 & H2 & H3 & H4).
        rewrite H1, H2, H3, H4. unfold packets_of, cost_of.
        rewrite <- !app_assoc, fmap_cons, sum_list_cons.
        cbn [app fst snd contribution Z.eqb]. split_and!; [done|done|ring|lia].
      * assert (E : SearchEnv.act_one self (acted, packets, cost, comms) (d, a)
                    = (acted ++ [d'], packets,
                       cost + SearchEnv.movement_cost self, comms)).
        { unfold SearchEnv.act_one. rewrite Hact.
          by destruct (Z.eqb_spec a 0). }
        rewrite E. clear E.
        destruct (IH (acted ++ [d']) packets
                    (cost + SearchEnv.movement_cost self) comms) as (H1 & H2 & H3 & H4).
        rewrite H1, H2, H3, H4. unfold packets_of, cost_of.
        rewrite <- !app_assoc, fmap_cons, sum_list_cons.
        cbn [app fst snd contribution]. destruct (Z.eqb_spec a 0) as [|_]; [done|].
        split_and!; [done|done|ring|lia].
Qed.

Lemma act_all_spec self drones actions :
  let outs := outcomes self drones actions in
  let r := SearchEnv.act_all self drones actions in
  fst (fst (fst r)) = (fun o => fst (fst o)) <$> outs
  /\ snd (fst (fst r)) = packets_of outs
  /\ snd (fst r) == cost_of self outs
  /\ snd r = (SearchEnv.total_communications self + Z.of_nat (length (packets_of outs)))%Z.
Proof.
  cbn zeta. unfold SearchEnv.act_all, outcomes.
  destruct (act_fold self (zip drones actions) [] [] 0 (SearchEnv.total_communications self))
    as (H1 & H2 & H3 & H4).
  rewrite H1, H2, H3, H4. split_and!; [done|done|ring|done].
Qed.

(** *** The termination scan *)

Lemma check_one_frame self d :
  SearchEnv.fire_pos (SearchEnv.check_one self d) = SearchEnv.fire_pos self
  /\ SearchEnv.total_cost (SearchEnv.check_one self d) = SearchEnv.total_cost self
  /\ SearchEnv.total_communications (SearchEnv.check_one self d)
     = SearchEnv.total_communications self
  /\ SearchEnv.communication_cost (SearchEnv.check_one self d)
     = SearchEnv.communication_cost self
  /\ SearchEnv.movement_cost (SearchEnv.check_one self d) = SearchEnv.movement_cost self.
Proof.
  unfold SearchEnv.check_one.
  by destruct (SearchEnv.at_fire self d), (SearchEnv.fire_extinguished self).
Qed.

Lemma check_all_frame drones : forall self,
  SearchEnv.fire_pos (SearchEnv.check_all self drones) = SearchEnv.fire_pos self
  /\ SearchEnv.total_cost (SearchEnv.check_all self drones) = SearchEnv.total_cost self
  /\ SearchEnv.total_communications (SearchEnv.check_all self drones)
     = SearchEnv.total_communications self
  /\ SearchEnv.communication_cost (SearchEnv.check_all self drones)
     = SearchEnv.communication_cost self
  /\ SearchEnv.movement_cost (SearchEnv.check_all self drones)
     = SearchEnv.movement_cost self.
Proof.
  unfold SearchEnv.check_all.
  induction drones as [|d drones IH]; intros self; [done|].
  cbn [foldl]. destruct (IH (SearchEnv.check_one self d)) as (H1 & H2 & H3 & H4 & H5).
  destruct (check_one_frame self d) as (K1 & K2 & K3 & K4 & K5).
  rewrite H1, H2, H3, H4, H5. by split_and!.
Qed.

Lemma check_one_extinguished self d :
  SearchEnv.fire_extinguished self = true -> SearchEnv.check_one self d = self.
Proof.
  intros Hf. unfold SearchEnv.check_one. rewrite Hf.
  by destruct (SearchEnv.at_fire self d).
Qed.

Lemma check_one_running self d :
  SearchEnv.fire_extinguished self = false ->
  SearchEnv.check_one self d =
  if SearchEnv.at_fire self d
  then SearchEnv.mk (SearchEnv.grid_size self) (SearchEnv.fire_pos self)
         (SearchEnv.communication_cost self) (SearchEnv.movement_cost self)
         (SearchEnv.total_cost self) true (Some (drone_time d))
         (SearchEnv.total_communications self)
  else self.
Proof. intros Hf. unfold SearchEnv.check_one. by rewrite Hf. Qed.

(** Once the flag is set the scan changes nothing. *)
Lemma check_all_extinguished drones : forall self,
  SearchEnv.fire_extinguished self = true -> SearchEnv.check_all self drones = self.
Proof.
  unfold SearchEnv.check_all.
  induction drones as [|d drones IH]; intros self Hf; [done|].
  cbn [foldl]. rewrite check_one_extinguished by done. by apply IH.
Qed.

(** With the flag unset, the scan sets it for the first drone on the
    fire and records that drone's clock. *)
Lemma check_all_running drones : forall self,
  SearchEnv.fire_extinguished self = false ->
  match first_at_fire self drones with
  | Some d =>
      SearchEnv.fire_extinguished (SearchEnv.check_all self drones) = true
      /\ SearchEnv.time_to_extinguish (SearchEnv.check_all self drones)
         = Some (drone_time d)
  | None => SearchEnv.check_all self drones = self
  end.
Proof.
  induction drones as [|d drones IH]; intros self Hf; [done|].
  unfold SearchEnv.check_all, first_at_fire in *.
  cbn [foldl]. rewrite filter_cons, check_one_running by done.
  destruct (SearchEnv.at_fire self d) eqn:Hat.
  - rewrite decide_True by done. cbn [head].
    pose proof (check_all_extinguished drones) as Hext.
    unfold SearchEnv.check_all in Hext. by rewrite Hext.
  - rewrite decide_False by done. by apply IH.
Qed.

(** *** One tick *)

(** [step] in terms of its three phases. *)
Lemma step_unfold self drones actions g :
  let acting := SearchEnv.act_all self drones actions in
  let acted := fst (fst (fst acting)) in
  let telemetry_packets := snd (fst (fst acting)) in
  let step_cost := snd (fst acting) in
  let self1 := SearchEnv.mk (SearchEnv.grid_size self) (SearchEnv.fire_pos self)
                 (SearchEnv.communication_cost self) (SearchEnv.movement_cost self)
                 (SearchEnv.total_cost self) (SearchEnv.fire_extinguished self)
                 (SearchEnv.time_to_extinguish self) (snd acting) in
  let delivered := SearchEnv.distribute telemetry_packets
                     (acted ++ drop (length acted) drones) g in
  let self2 := SearchEnv.check_all self1 (fst delivered) in
  let r := SearchEnv.step self drones actions g in
  returned r = (step_cost, SearchEnv.fire_extinguished self2)
  /\ drones_after r = fst delivered
  /\ rng_after r = snd delivered
  /\ SearchEnv.fire_extinguished (env_after r) = SearchEnv.fire_extinguished self2
  /\ SearchEnv.time_to_extinguish (env_after r) = SearchEnv.time_to_extinguish self2
  /\ SearchEnv.total_cost (env_after r) = SearchEnv.total_cost self + step_cost
  /\ SearchEnv.total_communications (env_after r) = snd acting
  /\ SearchEnv.fire_pos (env_after r) = SearchEnv.fire_pos self.
Proof.
  cbn zeta. unfold SearchEnv.step.
  destruct (SearchEnv.act_all self drones actions)
    as [[[acted packets] step_cost] comms]. cbn [fst snd].
  destruct (SearchEnv.distribute packets (acted ++ drop (length acted) drones) g)
    as [drones2 g']. cbn [fst snd].
  unfold returned, env_after, drones_after, rng_after. cbn [fst snd].
  cbn [SearchEnv.fire_extinguished SearchEnv.time_to_extinguish SearchEnv.total_cost
       SearchEnv.total_communications SearchEnv.fire_pos].
  match goal with |- context [SearchEnv.check_all ?e ?ds] =>
    destruct (check_all_frame ds e) as (H1 & H2 & H3 & H4 & H5) end.
  rewrite H1, H2, H3. by split_and!.
Qed.

(** C5. In every tick, an agent whose [action] returns a packet adds the
    communication cost and one communication, a silent agent adds the
    movement cost unless its action is stay, and a silent stay adds
    nothing; the tick cost is the sum of these and is what the total
    cost grows by.  With two agents, the first communicating and the
    second staying, one packet is collected, one communication is
    counted and the tick costs the communication cost alone. *)
Theorem step_cost_accounting :
  (forall self acted packets cost comms d a d',
     (forall p, drone_action d a (SearchEnv.fire_pos self) = (d', Some p) ->
        SearchEnv.act_one self (acted, packets, cost, comms) (d, a)
        = (acted ++ [d'], packets ++ [p],
           cost + SearchEnv.communication_cost self, (comms + 1)%Z))
     /\ (drone_action d a (SearchEnv.fire_pos self) = (d', None) -> a <> 0%Z ->
         SearchEnv.act_one self (acted, packets, cost, comms) (d, a)
         = (acted ++ [d'], packets, cost + SearchEnv.movement_cost self, comms))
     /\ (drone_action d a (SearchEnv.fire_pos self) = (d', None) -> a = 0%Z ->
         SearchEnv.act_one self (acted, packets, cost, comms) (d, a)
         = (acted ++ [d'], packets, cost, comms)))
  /\ (forall self drones actions g,
        let r := SearchEnv.step self drones actions g in
        let outs := outcomes self drones actions in
        fst (returned r) == cost_of self outs
        /\ SearchEnv.total_communications (env_after r)
           = (SearchEnv.total_communications self
              + Z.of_nat (length (packets_of outs)))%Z
        /\ SearchEnv.total_cost (env_after r)
           = SearchEnv.total_cost self + fst (returned r))
  /\ (forall self A B A' B' p g,
        drone_action A 5 (SearchEnv.fire_pos self) = (A', Some p) ->
        drone_action B 0 (SearchEnv.fire_pos self) = (B', None) ->
        let r := SearchEnv.step self [A; B] [5; 0]%Z g in
        SearchEnv.act_all self [A; B] [5; 0]%Z
        = ([A'; B'], [p], 0 + SearchEnv.communication_cost self,
           (SearchEnv.total_communications self + 1)%Z)
        /\ fst (returned r) = 0 + SearchEnv.communication_cost self
        /\ SearchEnv.total_communications (env_after r)
           = (SearchEnv.total_communications self + 1)%Z
        /\ SearchEnv.total_cost (env_after r)
           = SearchEnv.total_cost self + (0 + SearchEnv.communication_cost self)).
Proof.
  split_and!.
  - intros self acted packets cost comms d a d'. unfold SearchEnv.act_one.
    split_and!.
    + intros p ->. done.
    + intros -> Ha. by destruct (Z.eqb_spec a 0).
    + intros -> ->. done.
  - intros self drones actions g r outs.
    destruct (step_unfold self drones actions g) as (Hr & _ & _ & _ & _ & Hc & Hn & _).
    destruct (act_all_spec self drones actions) as (_ & _ & Hcost & Hcomms).
    fold r in Hr, Hc, Hn. fold outs in Hcost, Hcomms.
    rewrite Hr, Hc, Hn, Hcomms. cbn [fst snd]. by split_and!.
  - intros self A B A' B' p g HA HB r.
    assert (Hact : SearchEnv.act_all self [A; B] [5; 0]%Z
                   = ([A'; B'], [p], 0 + SearchEnv.communication_cost self,
                      (SearchEnv.total_communications self + 1)%Z)).
    { unfold SearchEnv.act_all. cbn [zip zip_with foldl].
      unfold SearchEnv.act_one. by rewrite HA, HB. }
    destruct (step_unfold self [A; B] [5; 0]%Z g) as (Hr & _ & _ & _ & _ & Hc & Hn & _).
    fold r in Hr, Hc, Hn. rewrite Hact in Hr, Hc, Hn. cbn [fst snd] in Hr, Hc, Hn.
    rewrite Hr, Hc, Hn. by split_and!.
Qed.

(** *** Termination *)

Lemma step_extinguished self drones actions g :
  SearchEnv.fire_extinguished self = true ->
  let r := SearchEnv.step self drones actions g in
  SearchEnv.fire_extinguished (env_after r) = true
  /\ SearchEnv.time_to_extinguish (env_after r) = SearchEnv.time_to_extinguish self
  /\ snd (returned r) = true.
Proof.
  intros Hf r.
  destruct (step_unfold self drones actions g) as (Hr & _ & _ & Hx & Ht & _).
  fold r in Hr, Hx, Ht. rewrite Hr, Hx, Ht. cbn [fst snd].
  rewrite check_all_extinguished by done. by split_and!.
Qed.

Lemma step_running self drones actions g :
  SearchEnv.fire_extinguished self = false ->
  let r := SearchEnv.step self drones actions g in
  match first_at_fire self (drones_after r) with
  | Some d =>
      SearchEnv.fire_extinguished (env_after r) = true
      /\ SearchEnv.time_to_extinguish (env_after r) = Some (drone_time d)
      /\ snd (returned r) = true
  | None =>
      SearchEnv.fire_extinguished (env_after r) = false
      /\ SearchEnv.time_to_extinguish (env_after r) = SearchEnv.time_to_extinguish self
      /\ snd (returned r) = false
  end.
Proof.
  intros Hf r.
  destruct (step_unfold self drones actions g) as (Hr & Hd & _ & Hx & Ht & _).
  fold r in Hr, Hd, Hx, Ht. rewrite Hr, Hx, Ht, Hd. cbn [fst snd].
  match goal with |- context [SearchEnv.check_all ?e ?ds] =>
    pose proof (check_all_running ds e Hf) as Hscan;
    change (first_at_fire e ds) with (first_at_fire self ds) in Hscan end.
  destruct (first_at_fire self _) as [d|].
  - destruct Hscan as [H1 H2]. by rewrite H1, H2.
  - by rewrite Hscan.
Qed.

Lemma run_extinguished ticks : forall self drones g,
  SearchEnv.fire_extinguished self = true ->
  let r := SearchEnv.run self drones g ticks in
  SearchEnv.fire_extinguished (fst (fst r)) = true
  /\ SearchEnv.time_to_extinguish (fst (fst r)) = SearchEnv.time_to_extinguish self.
Proof.
  induction ticks as [|actions ticks IH]; intros self drones g Hf; [done|].
  cbn [SearchEnv.run].
  destruct (step_extinguished self drones actions g Hf) as (H1 & H2 & _).
  destruct (SearchEnv.step self drones actions g) as [[[ret self'] drones'] g'].
  unfold env_after in H1, H2. cbn [fst snd] in H1, H2.
  destruct (IH self' drones' g' H1) as [K1 K2]. cbn zeta. by rewrite K1, K2.
Qed.

(** The test of the scan holds exactly for a drone whose coordinates are
    the fire's. *)
Lemma at_fire_spec self (d : D) : SearchEnv.at_fire self d = true <-> stands_on_fire self d.
Proof.
  unfold SearchEnv.at_fire, stands_on_fire. by rewrite andb_true_iff, !Z.eqb_eq.
Qed.

Lemma first_at_fire_split self (before : list D) d after :
  (forall d', d' ∈ before -> ~ stands_on_fire self d') -> stands_on_fire self d ->
  first_at_fire self (before ++ d :: after) = Some d.
Proof.
  intros Hbefore Hd. unfold first_at_fire. rewrite filter_app.
  assert (Hnone : filter (fun d0 => SearchEnv.at_fire self d0 = true) before = []).
  { induction before as [|x before IH]; [done|].
    rewrite filter_cons, decide_False.
    - apply IH. intros d' Hd'. apply Hbefore, elem_of_cons. by right.
    - rewrite at_fire_spec. apply Hbefore, elem_of_cons. by left. }
  rewrite Hnone, app_nil_l, filter_cons, decide_True by by apply at_fire_spec. done.
Qed.

Lemma first_at_fire_none self (drones : list D) :
  (forall d, d ∈ drones -> ~ stands_on_fire self d) -> first_at_fire self drones = None.
Proof.
  intros Hnone. unfold first_at_fire.
  induction drones as [|x drones IH]; [done|].
  rewrite filter_cons, decide_False.
  - apply IH. intros d Hd. apply Hnone, elem_of_cons. by right.
  - rewrite at_fire_spec. apply Hnone, elem_of_cons. by left.
Qed.

(** C4. The tick in which a drone first stands on the fire sets
    [fire_extinguished] and records the clock of that drone, the first one
    of the list whose position is the fire's; as long as no drone stands
    on the fire the flag stays unset; from then on every tick, whatever the
    drones do, leaves the flag set and the recorded time as it is. *)
Theorem extinguished_once self drones actions g :
  let r := SearchEnv.step self drones actions g in
  (SearchEnv.fire_extinguished self = false ->
     forall before d after,
       drones_after r = before ++ d :: after ->
       (forall d', d' ∈ before ->
          ~ (drone_x d' = fst (SearchEnv.fire_pos self)
             /\ drone_y d' = snd (SearchEnv.fire_pos self))) ->
       drone_x d = fst (SearchEnv.fire_pos self) ->
       drone_y d = snd (SearchEnv.fire_pos self) ->
       SearchEnv.fire_extinguished (env_after r) = true
       /\ SearchEnv.time_to_extinguish (env_after r) = Some (drone_time d)
       /\ snd (returned r) = true)
  /\ (SearchEnv.fire_extinguished self = false ->
      (forall d, d ∈ drones_after r ->
         ~ (drone_x d = fst (SearchEnv.fire_pos self)
            /\ drone_y d = snd (SearchEnv.fire_pos self))) ->
        SearchEnv.fire_extinguished (env_after r) = false
        /\ SearchEnv.time_to_extinguish (env_after r) = SearchEnv.time_to_extinguish self
        /\ snd (returned r) = false)
  /\ (SearchEnv.fire_extinguished self = true ->
        SearchEnv.fire_extinguished (env_after r) = true
        /\ SearchEnv.time_to_extinguish (env_after r) = SearchEnv.time_to_extinguish self
        /\ snd (returned r) = true)
  /\ (SearchEnv.fire_extinguished (env_after r) = true ->
      forall ticks,
        let later := SearchEnv.run (env_after r) (drones_after r) (rng_after r) ticks in
        SearchEnv.fire_extinguished (fst (fst later)) = true
        /\ SearchEnv.time_to_extinguish (fst (fst later))
           = SearchEnv.time_to_extinguish (env_after r)).
Proof.
  intros r. split_and!.
  - intros Hf before d after Hsplit Hbefore Hx Hy.
    pose proof (step_running self drones actions g Hf) as H.
    cbv zeta in H. fold r in H.
    rewrite Hsplit, (first_at_fire_split self before d after Hbefore (conj Hx Hy)) in H.
    exact H.
  - intros Hf Hnone. pose proof (step_running self drones actions g Hf) as H.
    cbv zeta in H. fold r in H. rewrite (first_at_fire_none self _ Hnone) in H. exact H.
  - intros Hf. by apply step_extinguished.
  - intros Hf ticks. by apply run_extinguished.
Qed.

End StepFacts.

(** ** The theorems at work on the sample data *)

(** Closes [shaped r c a] for a concrete array. *)
Ltac concrete_shape := vm_compute; split; [reflexivity | repeat constructor].

(** Closes a goal about the cells [(i, j)] of a 5 by 5 grid, case by case. *)
Ltac each_cell_of_5x5 i j tac :=
  do 5 (destruct i as [|i]; [do 5 (destruct j as [|j]; [tac|]); lia|]); lia.

(** C1 on the 5 by 5 scenario, from the uniform prior. *)
Lemma update_fire_observed_uniform_witness :
  (np.get (BeliefState.belief
             (BeliefState.update_with_observation Sample.prior (2, 2)%Z 3 true)) 1 1
   == 1 / footprint_size 5 2 2 3)%Q
  /\ (np.sum (BeliefState.belief
               (BeliefState.update_with_observation Sample.prior (2, 2)%Z 3 true)) == 1)%Q.
Proof.
  destruct (proj1 update_fire_observed_uniform Sample.prior 2%Z 2%Z 3%Z)
    as (_ & Hcell & Hsum & _); [simpl; lia ..|].
  split; [exact (Hcell 1%nat 1%nat ltac:(simpl; lia) ltac:(simpl; lia)) | exact Hsum].
Defined.

(** C3 on the 5 by 5 scenario: the window around (2, 2) is emptied and the
    sixteen cells around it share the mass. *)
Lemma update_no_fire_eliminates_witness :
  (np.get (BeliefState.belief Sample.searched) 2 2 == 0)%Q
  /\ (np.get (BeliefState.belief Sample.searched) 0 0
      == np.get (BeliefState.belief Sample.prior) 0 0
         / mass_outside 5 2 2 3 (BeliefState.belief Sample.prior))%Q
  /\ (np.sum (BeliefState.belief Sample.searched) == 1)%Q.
Proof.
  destruct (update_no_fire_eliminates Sample.prior 2 2 3) as (Hpos & _).
  - concrete_shape.
  - intros i j Hi Hj. simpl in Hi, Hj. each_cell_of_5x5 i j ltac:(by vm_compute).
  - destruct Hpos as [Hcell Hsum]; [by vm_compute|].
    split_and!; [|exact (Hcell 0%nat 0%nat ltac:(simpl; lia) ltac:(simpl; lia))|exact Hsum].
    exact (Hcell 2%nat 2%nat ltac:(simpl; lia) ltac:(simpl; lia)).
Defined.

(** The negative scenario of the 5 by 5 grid, computed: nothing in the
    window, 1/16 on each of the sixteen cells around it. *)
Example searched_cells :
  (np.get (BeliefState.belief Sample.searched) 2 2 == 0)%Q
  /\ (np.get (BeliefState.belief Sample.searched) 1 3 == 0)%Q
  /\ (np.get (BeliefState.belief Sample.searched) 0 0 == 1 # 16)%Q
  /\ (np.get (BeliefState.belief Sample.searched) 4 2 == 1 # 16)%Q.
Proof. by vm_compute. Qed.

(** C2 on two uniform priors merged with weight 1/2, and on a peer that
    has found the fire. *)
Lemma merge_adopts_or_averages_witness :
  (np.sum (BeliefState.belief
             (BeliefState.merge_with_other_belief Sample.prior Sample.prior (1 # 2))) == 1)%Q
  /\ BeliefState.belief
       (BeliefState.merge_with_other_belief Sample.searched
          (BeliefState.update_with_observation Sample.prior (2, 2)%Z 3 true) (1 # 2))
     = BeliefState.belief (BeliefState.update_with_observation Sample.prior (2, 2)%Z 3 true).
Proof.
  split.
  - destruct (merge_adopts_or_averages Sample.prior Sample.prior (1 # 2)) as (_ & Havg);
      [concrete_shape | concrete_shape | by vm_compute |].
    destruct (Havg eq_refl) as ((_ & Hsum) & _); [by vm_compute | exact Hsum].
  - destruct (merge_adopts_or_averages Sample.searched
                (BeliefState.update_with_observation Sample.prior (2, 2)%Z 3 true) (1 # 2))
      as (Hadopt & _); [concrete_shape | concrete_shape | by vm_compute |].
    exact (proj1 (Hadopt eq_refl)).
Defined.

(** C9 on the belief left by the negative observation. *)
Lemma merge_with_copy_is_identity_witness :
  (np.get (BeliefState.belief
             (BeliefState.merge_with_other_belief Sample.searched Sample.searched (1 # 3)))
          0 0
   == np.get (BeliefState.belief Sample.searched) 0 0)%Q.
Proof.
  apply (merge_with_copy_is_identity Sample.searched (1 # 3) 0 0).
  - concrete_shape.
  - left. by vm_compute.
  - by vm_compute.
  - simpl. lia.
  - simpl. lia.
Defined.

(** C8 on the belief left by the negative observation: sixteen cells tie
    and the first of them, (0, 0), is returned. *)
Lemma most_likely_location_first_max_witness :
  BeliefState.get_most_likely_location Sample.searched = Some (0, 0)%nat
  /\ exists r c,
       BeliefState.get_most_likely_location Sample.searched = Some (r, c)
       /\ (r < 5)%nat /\ (c < 5)%nat
       /\ (forall i j, (i < 5)%nat -> (j < 5)%nat ->
             (np.get (BeliefState.belief Sample.searched) i j
              <= np.get (BeliefState.belief Sample.searched) r c)%Q)
       /\ (forall i j, (i < 5)%nat -> (j < 5)%nat ->
             (np.get (BeliefState.belief Sample.searched) i j
              == np.get (BeliefState.belief Sample.searched) r c)%Q ->
             row_major_le (r, c) (i, j)).
Proof.
  split; [by vm_compute|].
  apply (most_likely_location_first_max Sample.searched).
  - concrete_shape.
  - by vm_compute.
Defined.

(** C7 in the corner (0, 4): moving left or up leaves the drone there. *)
Lemma action_stays_on_grid_witness :
  Drone.position (fst (Drone.action (P := TelemetryPacket) Sample.corner_drone 3 (2, 2)%Z))
  = (0, 4)%Z
  /\ Drone.position (fst (Drone.action (P := TelemetryPacket) Sample.corner_drone 1 (2, 2)%Z))
     = (0, 4)%Z.
Proof.
  destruct (action_stays_on_grid (P := TelemetryPacket) Sample.corner_drone 3 (2, 2)%Z)
    as (_ & _ & _ & _ & Hleft & _); [by vm_compute ..|].
  destruct (action_stays_on_grid (P := TelemetryPacket) Sample.corner_drone 1 (2, 2)%Z)
    as (_ & _ & Hup & _); [by vm_compute ..|].
  specialize (Hleft eq_refl eq_refl). specialize (Hup eq_refl eq_refl).
  split; apply injective_projections; simpl; solve [exact Hleft | exact Hup | reflexivity].
Defined.

(** C5 on the two sample agents: the first communicates, the second
    stays. *)
Lemma step_cost_accounting_witness :
  let r := SearchEnv.step Sample.env [Sample.agent_a; Sample.agent_b] [5; 0]%Z [] in
  fst (returned r) = (0 + (1 # 2))%Q
  /\ SearchEnv.total_communications (env_after r) = 1%Z
  /\ SearchEnv.total_cost (env_after r) = (0 + (0 + (1 # 2)))%Q.
Proof.
  destruct (proj2 (proj2 step_cost_accounting) Sample.env Sample.agent_a Sample.agent_b
              (fst (Agent.action Sample.agent_a 5 (2, 2)%Z))
              (fst (Agent.action Sample.agent_b 0 (2, 2)%Z))
              (mkPacket 0 (2, 1)%Z 3 true (0 + (1 # 20))%Q) [])
    as (_ & Hcost & Hcomms & Htotal); [reflexivity | reflexivity |].
  cbv zeta. split_and!; [exact Hcost | exact Hcomms | exact Htotal].
Defined.

(** C4 on the two sample agents: the first steps onto the fire at its
    first tick, and two further ticks leave the recorded time alone. *)
Lemma extinguished_once_witness :
  let r := SearchEnv.step Sample.env [Sample.agent_a; Sample.agent_b] [1; 0]%Z [] in
  let later := SearchEnv.run (env_after r) (drones_after r) (rng_after r)
                 [[2; 5]; [0; 3]]%Z in
  SearchEnv.fire_extinguished (env_after r) = true
  /\ SearchEnv.time_to_extinguish (env_after r) = Some (0 + (1 # 20))%Q
  /\ SearchEnv.fire_extinguished (fst (fst later)) = true
  /\ SearchEnv.time_to_extinguish (fst (fst later))
     = SearchEnv.time_to_extinguish (env_after r).
Proof.
  cbv zeta.
  destruct (extinguished_once Sample.env [Sample.agent_a; Sample.agent_b] [1; 0]%Z [])
    as (Hfirst & _ & _ & Hlater).
  destruct (Hfirst eq_refl []
              (fst (Agent.action Sample.agent_a 1 (2, 2)%Z))
              [fst (Agent.action Sample.agent_b 0 (2, 2)%Z)])
    as (Hflag & Htime & _).
  - by vm_compute.
  - intros d' Hd'. by apply elem_of_nil in Hd'.
  - reflexivity.
  - reflexivity.
  - destruct (Hlater Hflag [[2; 5]; [0; 3]]%Z) as (Hflag' & Htime').
    split_and!; [exact Hflag | exact Htime | exact Hflag' | exact Htime'].
Defined.

(** ** More about the belief grid *)

Section BeliefLaws.

Local Open Scope Q_scope.
Implicit Types (self other : BeliefState.t) (a b : np.ndarray) (n i j : nat).

Lemma sum_list_le {A : Type} (f g : A -> Q) (l : list A) :
  (forall x, x ∈ l -> f x <= g x) -> np.sum_list (f <$> l) <= np.sum_list (g <$> l).
Proof.
  induction l as [|x l IH]; intros H.
  - rewrite !fmap_nil, sum_list_nil. lra.
  - rewrite !fmap_cons, !sum_list_cons.
    assert (f x <= g x) by (apply H, elem_of_cons; by left).
    assert (np.sum_list (f <$> l) <= np.sum_list (g <$> l))
      by (apply IH; intros y Hy; apply H, elem_of_cons; by right).
    lra.
Qed.

Lemma sum_le n a b :
  shaped n n a -> shaped n n b ->
  (forall i j, (i < n)%nat -> (j < n)%nat -> np.get a i j <= np.get b i j) ->
  np.sum a <= np.sum b.
Proof.
  intros Ha Hb Hab. rewrite (sum_cells n n a Ha), (sum_cells n n b Hb).
  apply sum_list_le. intros p Hp. apply elem_of_grid_cells in Hp as [Hi Hj].
  by apply Hab.
Qed.

Lemma get_ones n i j : (i < n)%nat -> (j < n)%nat -> np.get (np.ones n n) i j = 1.
Proof.
  intros Hi Hj. unfold np.get. fold (cell (np.ones n n) i j). by rewrite cell_ones.
Qed.

Lemma get_zeros n i j : (i < n)%nat -> (j < n)%nat -> np.get (np.zeros n n) i j = 0.
Proof.
  intros Hi Hj. unfold np.get. fold (cell (np.zeros n n) i j). by rewrite cell_zeros.
Qed.

Lemma sum_ones n : np.sum (np.ones n n) == inject_Z (Z.of_nat (n * n)).
Proof.
  rewrite (sum_cells n n) by apply shaped_ones.
  rewrite (sum_list_ext _ (fun _ => 1)).
  - by rewrite sum_list_ones, length_grid_cells.
  - intros p Hp. apply elem_of_grid_cells in Hp as [Hi Hj]. by rewrite get_ones.
Qed.

(** Conditional renormalisation respects cellwise equality. *)
Lemma normalize_if_positive_ext n a b i j :
  shaped n n a -> shaped n n b ->
  (forall i j, (i < n)%nat -> (j < n)%nat -> np.get a i j == np.get b i j) ->
  (i < n)%nat -> (j < n)%nat ->
  np.get (BeliefState.normalize_if_positive a) i j
  == np.get (BeliefState.normalize_if_positive b) i j.
Proof.
  intros Ha Hb Hab Hi Hj. pose proof (sum_ext n n a b Ha Hb Hab) as Hsum.
  unfold BeliefState.normalize_if_positive, BeliefState.normalize.
  destruct (Qlt_le_dec 0 (np.sum a)), (Qlt_le_dec 0 (np.sum b)); try lra.
  - rewrite !(get_div n n) by done. rewrite Hsum, Hab by done. reflexivity.
  - by apply Hab.
Qed.

(** It changes nothing on a grid of total 1, or of total at most 0. *)
Lemma normalize_if_positive_fixed n a i j :
  shaped n n a -> np.sum a == 1 \/ np.sum a <= 0 -> (i < n)%nat -> (j < n)%nat ->
  np.get (BeliefState.normalize_if_positive a) i j == np.get a i j.
Proof.
  intros Ha Hsum Hi Hj. unfold BeliefState.normalize_if_positive, BeliefState.normalize.
  destruct (Qlt_le_dec 0 (np.sum a)) as [Hlt|Hle]; [|reflexivity].
  rewrite (get_div n n) by done. destruct Hsum as [H1|H0]; [|lra].
  rewrite H1. field.
Qed.

(** The cells after a positive observation from the grid. *)
Lemma observed_cells self x y w i j :
  let n := BeliefState.grid_size self in
  (0 <= x < n)%Z -> (0 <= y < n)%Z -> (0 <= w)%Z ->
  (i < Z.to_nat n)%nat -> (j < Z.to_nat n)%nat ->
  np.get (BeliefState.belief (BeliefState.update_with_observation self (x, y) w true)) i j
  == if in_footprint x y w (i, j) then 1 / footprint_size (Z.to_nat n) x y w else 0.
Proof.
  intros n Hx Hy Hw Hi Hj.
  cbn [BeliefState.update_with_observation BeliefState.belief]. fold n.
  pose proof (footprint_size_pos n x y w Hx Hy Hw) as Hk.
  unfold BeliefState.normalize.
  rewrite (get_div (Z.to_nat n) (Z.to_nat n)) by (done || apply shaped_fill, shaped_zeros).
  rewrite sum_fill_ones, (get_fill n x y w) by (done || apply shaped_zeros).
  destruct (in_footprint x y w (i, j)); [reflexivity|].
  rewrite get_zeros by done. field. lra.
Qed.

(** X1. The prior of a fresh belief on a grid of size at least 1 is
    uniform: every cell holds [1 / grid_size^2], the grid sums to 1, and
    nothing is found. *)
Theorem init_uniform (grid_size : Z) :
  (1 <= grid_size)%Z ->
  let self := BeliefState.init grid_size in
  well_shaped self
  /\ (forall i j, (i < Z.to_nat grid_size)%nat -> (j < Z.to_nat grid_size)%nat ->
        np.get (BeliefState.belief self) i j == 1 / inject_Z (grid_size * grid_size))
  /\ np.sum (BeliefState.belief self) == 1
  /\ BeliefState.fire_found self = false
  /\ BeliefState.fire_location self = None.
Proof.
  intros Hn self. set (n := Z.to_nat grid_size).
  assert (Hshape : shaped n n (np.ones n n)) by apply shaped_ones.
  split_and!; [by apply shaped_div| | |done|done].
  - intros i j Hi Hj. cbn [self BeliefState.init BeliefState.belief]. fold n.
    by rewrite (get_div n n), get_ones.
  - cbn [self BeliefState.init BeliefState.belief]. fold n.
    rewrite (sum_div n n) by done. rewrite sum_ones. unfold n.
    rewrite Nat2Z.inj_mul, Z2Nat.id by lia. field.
    change 0 with (inject_Z 0). rewrite inject_Z_injective. nia.
Qed.

Lemma apply_operation_valid self o :
  valid self -> admissible (BeliefState.grid_size self) o ->
  valid (apply_operation self o)
  /\ BeliefState.grid_size (apply_operation self o) = BeliefState.grid_size self.
Proof.
  intros Hv Hadm. destruct o as [[x y] w [|]|other weight]; cbn [apply_operation].
  - destruct Hadm as (Hx & Hy & Hw). split; [by apply valid_update_observed|done].
  - split; [by apply valid_update_unobserved|done].
  - destruct Hadm as (Hother & Hsize & Hw). split; [by apply valid_merge|].
    unfold BeliefState.merge_with_other_belief. by destruct (BeliefState.fire_found other).
Qed.

(** X2. The invariant of the belief survives every sequence of
    observations and merges: from a square grid of non-negative cells that
    sums to 1 or to 0, positive observations made from the grid, negative
    observations made anywhere and merges with valid peers of the same
    grid size, weighted in [[0, 1]], lead to such a grid again, of the same
    size. *)
Theorem operations_keep_valid (ops : list operation) self :
  valid self -> Forall (admissible (BeliefState.grid_size self)) ops ->
  valid (apply_operations self ops)
  /\ BeliefState.grid_size (apply_operations self ops) = BeliefState.grid_size self.
Proof.
  revert self. induction ops as [|o ops IH]; intros self Hv Hadm; [done|].
  apply Forall_cons in Hadm as [Ho Hops]. unfold apply_operations in *. cbn [foldl].
  destruct (apply_operation_valid self o Hv Ho) as [Hv' Hsize].
  rewrite <- Hsize in Hops. destruct (IH _ Hv' Hops) as [Hfinal Hsize'].
  split; [done|]. by rewrite Hsize'.
Qed.

(** X3. [fire_found] is never reset and [grid_size] never changes,
    whatever observations and merges follow, admissible or not. *)
Theorem fire_found_is_sticky (ops : list operation) self :
  BeliefState.grid_size (apply_operations self ops) = BeliefState.grid_size self
  /\ (BeliefState.fire_found self = true ->
      BeliefState.fire_found (apply_operations self ops) = true).
Proof.
  revert self. induction ops as [|o ops IH]; intros self; [done|].
  unfold apply_operations in *. cbn [foldl].
  destruct (IH (apply_operation self o)) as [Hsize Hfound].
  assert (Hstep : BeliefState.grid_size (apply_operation self o) = BeliefState.grid_size self
                  /\ (BeliefState.fire_found self = true ->
                      BeliefState.fire_found (apply_operation self o) = true)).
  { destruct o as [[x y] w [|]|other weight]; cbn; [done|done|].
    unfold BeliefState.merge_with_other_belief.
    by destruct (BeliefState.fire_found other). }
  destruct Hstep as [Hsize1 Hfound1]. split; [by rewrite Hsize|].
  intros Hf. by apply Hfound, Hfound1.
Qed.

(** The cells after the loops of a negative observation. *)
Lemma get_zeroed self x y w i j :
  well_shaped self ->
  (i < Z.to_nat (BeliefState.grid_size self))%nat ->
  (j < Z.to_nat (BeliefState.grid_size self))%nat ->
  np.get (BeliefState.fill (BeliefState.belief self)
            (BeliefState.window (BeliefState.grid_size self) x w)
            (BeliefState.window (BeliefState.grid_size self) y w) 0) i j
  = if in_footprint x y w (i, j) then 0 else np.get (BeliefState.belief self) i j.
Proof. intros Hs Hi Hj. by rewrite (get_fill _ x y w). Qed.

(** X4. A negative observation is idempotent: repeating it at the same
    position with the same window leaves every cell as the first one left
    it. *)
Theorem update_no_fire_idempotent self x y w i j :
  let n := Z.to_nat (BeliefState.grid_size self) in
  let once := BeliefState.update_with_observation self (x, y) w false in
  let twice := BeliefState.update_with_observation once (x, y) w false in
  valid self -> (i < n)%nat -> (j < n)%nat ->
  np.get (BeliefState.belief twice) i j == np.get (BeliefState.belief once) i j.
Proof.
  intros n once twice Hv Hi Hj.
  pose proof (valid_update_unobserved self x y w Hv) as (Hshape1 & Hpos1 & Hnorm1).
  fold once in Hshape1, Hpos1, Hnorm1.
  assert (Hn : BeliefState.grid_size once = BeliefState.grid_size self) by done.
  unfold well_shaped in Hshape1. rewrite Hn in Hshape1, Hpos1. fold n in Hshape1, Hpos1.
  assert (Hfp : forall i j, (i < n)%nat -> (j < n)%nat -> in_footprint x y w (i, j) = true ->
            np.get (BeliefState.belief once) i j == 0).
  { intros i' j' Hi' Hj' Hin. destruct Hv as (Hshape & Hpos & _).
    unfold once. cbn [BeliefState.update_with_observation BeliefState.belief].
    set (b1 := BeliefState.fill _ _ _ 0).
    assert (Hb1 : shaped n n b1) by by apply shaped_fill.
    assert (Hz : np.get b1 i' j' = 0) by (unfold b1; by rewrite get_zeroed, Hin).
    unfold BeliefState.normalize_if_positive, BeliefState.normalize.
    destruct (Qlt_le_dec 0 (np.sum b1)) as [Hlt|Hle]; [|by rewrite Hz].
    rewrite (get_div n n), Hz by done. field. lra. }
  change (BeliefState.belief twice) with
    (BeliefState.normalize_if_positive
       (BeliefState.fill (BeliefState.belief once)
          (BeliefState.window (BeliefState.grid_size once) x w)
          (BeliefState.window (BeliefState.grid_size once) y w) 0)).
  set (b2 := BeliefState.fill (BeliefState.belief once) _ _ 0).
  assert (Hb2 : shaped n n b2) by by apply shaped_fill.
  assert (Hcells : forall i j, (i < n)%nat -> (j < n)%nat ->
            np.get b2 i j == np.get (BeliefState.belief once) i j).
  { intros i' j' Hi' Hj'. unfold b2. rewrite get_zeroed by (done || by rewrite Hn).
    destruct (in_footprint x y w (i', j')) eqn:Hin; [|reflexivity].
    by rewrite Hfp. }
  transitivity (np.get b2 i j); [|by apply Hcells].
  apply (normalize_if_positive_fixed n); [done| |done|done].
  pose proof (sum_ext n n b2 _ Hb2 Hshape1 Hcells) as Hsum.
  unfold normalized_or_degenerate in Hnorm1.
  destruct Hnorm1 as [H|H]; [left|right]; lra.
Qed.

(** X5. A negative observation right after a positive one, at the same
    position with the same window, wipes the belief: every cell is 0 and
    the grid sums to 0, while [fire_found] stays set. *)
Theorem no_fire_after_fire_wipes_belief self x y w :
  let n := BeliefState.grid_size self in
  let seen := BeliefState.update_with_observation self (x, y) w true in
  let lost := BeliefState.update_with_observation seen (x, y) w false in
  (0 <= x < n)%Z -> (0 <= y < n)%Z -> (0 <= w)%Z ->
  (forall i j, (i < Z.to_nat n)%nat -> (j < Z.to_nat n)%nat ->
     np.get (BeliefState.belief lost) i j == 0)
  /\ np.sum (BeliefState.belief lost) == 0
  /\ BeliefState.fire_found lost = true.
Proof.
  intros n seen lost Hx Hy Hw.
  pose proof (valid_update_observed self x y w Hx Hy Hw) as (Hshape & _).
  fold seen in Hshape.
  change (BeliefState.belief lost) with
    (BeliefState.normalize_if_positive
       (BeliefState.fill (BeliefState.belief seen)
          (BeliefState.window (BeliefState.grid_size seen) x w)
          (BeliefState.window (BeliefState.grid_size seen) y w) 0)).
  set (b2 := BeliefState.fill (BeliefState.belief seen) _ _ 0).
  assert (Hn : BeliefState.grid_size seen = n) by done.
  assert (Hb2 : shaped (Z.to_nat n) (Z.to_nat n) b2).
  { apply shaped_fill. unfold well_shaped in Hshape. by rewrite Hn in Hshape. }
  assert (Hcells : forall i j, (i < Z.to_nat n)%nat -> (j < Z.to_nat n)%nat ->
            np.get b2 i j == 0).
  { intros i j Hi Hj. unfold b2. rewrite get_zeroed by (done || by rewrite Hn).
    pose proof (observed_cells self x y w i j Hx Hy Hw Hi Hj) as Hc. fold seen in Hc.
    destruct (in_footprint x y w (i, j)); [reflexivity|done]. }
  assert (Hsum : np.sum b2 == 0).
  { rewrite (sum_ext _ _ b2 (np.zeros (Z.to_nat n) (Z.to_nat n)) Hb2 (shaped_zeros _ _)).
    - rewrite (sum_cells (Z.to_nat n) (Z.to_nat n)) by apply shaped_zeros.
      rewrite (sum_list_ext _ (fun _ => 0 * 1)).
      + rewrite (sum_list_scale 0 (fun _ => 1)). ring.
      + intros p Hp. apply elem_of_grid_cells in Hp as [Hi Hj].
        rewrite get_zeros by done. ring.
    - intros i j Hi Hj. by rewrite Hcells, get_zeros. }
  unfold BeliefState.normalize_if_positive.
  destruct (Qlt_le_dec 0 (np.sum b2)) as [Hlt|Hle]; [lra|]. by split_and!.
Qed.

(** Zeroing the footprint cannot add mass. *)
Lemma sum_zeroed_le self x y w :
  well_shaped self ->
  non_negative (Z.to_nat (BeliefState.grid_size self)) (BeliefState.belief self) ->
  np.sum (BeliefState.fill (BeliefState.belief self)
            (BeliefState.window (BeliefState.grid_size self) x w)
            (BeliefState.window (BeliefState.grid_size self) y w) 0)
  <= np.sum (BeliefState.belief self).
Proof.
  intros Hs Hpos. apply (sum_le (Z.to_nat (BeliefState.grid_size self)));
    [by apply shaped_fill|done|].
  intros i j Hi Hj. rewrite get_zeroed by done.
  destruct (in_footprint x y w (i, j)); [by apply Hpos|lra].
Qed.

(** X6. Eliminating a region never lowers the belief of a cell outside of
    it, and never raises the total. *)
Theorem update_no_fire_raises_outside self x y w i j :
  let n := Z.to_nat (BeliefState.grid_size self) in
  let self' := BeliefState.update_with_observation self (x, y) w false in
  valid self -> (i < n)%nat -> (j < n)%nat -> in_footprint x y w (i, j) = false ->
  np.get (BeliefState.belief self) i j <= np.get (BeliefState.belief self') i j
  /\ np.sum (BeliefState.belief self') <= 1.
Proof.
  intros n self' (Hshape & Hpos & Hnorm) Hi Hj Hout.
  pose proof (sum_zeroed_le self x y w Hshape Hpos) as Hle.
  pose proof (valid_update_unobserved self x y w (conj Hshape (conj Hpos Hnorm)))
    as (_ & _ & Hnorm').
  fold self' in Hnorm'. split; [|destruct Hnorm' as [->| ->]; lra].
  unfold self'. cbn [BeliefState.update_with_observation BeliefState.belief].
  set (b1 := BeliefState.fill _ _ _ 0) in *.
  assert (Hb1 : shaped n n b1) by by apply shaped_fill.
  assert (Hcell : np.get b1 i j = np.get (BeliefState.belief self) i j)
    by (unfold b1; by rewrite get_zeroed, Hout).
  specialize (Hpos i j Hi Hj). fold n in Hpos.
  unfold BeliefState.normalize_if_positive, BeliefState.normalize.
  destruct (Qlt_le_dec 0 (np.sum b1)) as [Hlt|Hge]; [|rewrite Hcell; lra].
  rewrite (get_div n n), Hcell by done.
  assert (Hs1 : np.sum b1 <= 1) by (destruct Hnorm as [H|H]; rewrite H in Hle; lra).
  apply Qle_shift_div_l; [done|]. nra.
Qed.

Lemma weighted_mass_split n weight a b :
  shaped n n a -> shaped n n b ->
  weighted_mass n weight a b == weight * np.sum a + (1 - weight) * np.sum b.
Proof.
  intros Ha Hb. unfold weighted_mass, weighted_average.
  rewrite (sum_cells n n a Ha), (sum_cells n n b Hb).
  rewrite (sum_list_plus (fun p => weight * np.get a (fst p) (snd p))
                         (fun p => (1 - weight) * np.get b (fst p) (snd p))).
  by rewrite !sum_list_scale.
Qed.

(** X7. Two normalised beliefs merge into their plain convex combination:
    the renormalisation changes nothing, the result sums to 1 and every
    cell lies between the two cells it comes from. *)
Theorem merge_of_normalized_is_convex self other weight i j :
  let n := Z.to_nat (BeliefState.grid_size self) in
  let a := BeliefState.belief self in
  let b := BeliefState.belief other in
  let merged := BeliefState.merge_with_other_belief self other weight in
  shaped n n a -> shaped n n b -> np.sum a == 1 -> np.sum b == 1 ->
  BeliefState.fire_found other = false -> 0 <= weight <= 1 ->
  (i < n)%nat -> (j < n)%nat ->
  np.get (BeliefState.belief merged) i j
  == weight * np.get a i j + (1 - weight) * np.get b i j
  /\ (np.get a i j <= np.get b i j ->
      np.get a i j <= np.get (BeliefState.belief merged) i j <= np.get b i j)
  /\ (np.get b i j <= np.get a i j ->
      np.get b i j <= np.get (BeliefState.belief merged) i j <= np.get a i j)
  /\ np.sum (BeliefState.belief merged) == 1.
Proof.
  intros n a b merged Ha Hb Hsa Hsb Hother Hw Hi Hj.
  unfold merged, BeliefState.merge_with_other_belief. rewrite Hother.
  cbn [BeliefState.belief]. fold a b.
  set (avg := np.add (np.scale weight a) (np.scale (1 - weight) b)).
  assert (Havg : shaped n n avg) by by apply shaped_add; apply shaped_scale.
  assert (Hsum : np.sum avg == 1).
  { unfold avg. rewrite (sum_average n), (weighted_mass_split n) by done.
    rewrite Hsa, Hsb. ring. }
  assert (Hcell : np.get (BeliefState.normalize_if_positive avg) i j
                  == weight * np.get a i j + (1 - weight) * np.get b i j).
  { rewrite (normalize_if_positive_fixed n) by (done || by left).
    unfold avg. by rewrite (get_average n). }
  split_and!; [done| | |].
  - intros Hab. rewrite Hcell. nra.
  - intros Hba. rewrite Hcell. nra.
  - unfold BeliefState.normalize_if_positive.
    destruct (Qlt_le_dec 0 (np.sum avg)) as [Hlt|Hle]; [|lra].
    apply (sum_normalize n n avg Havg). lra.
Qed.

(** X8. Averaging is symmetric: as long as neither side has found the
    fire, merging [other] into [self] with weight [w] gives the cells that
    merging [self] into [other] with weight [1 - w] gives. *)
Theorem merge_swaps_with_weight self other weight i j :
  let n := Z.to_nat (BeliefState.grid_size self) in
  shaped n n (BeliefState.belief self) -> shaped n n (BeliefState.belief other) ->
  BeliefState.fire_found self = false -> BeliefState.fire_found other = false ->
  (i < n)%nat -> (j < n)%nat ->
  np.get (BeliefState.belief (BeliefState.merge_with_other_belief self other weight)) i j
  == np.get (BeliefState.belief
               (BeliefState.merge_with_other_belief other self (1 - weight))) i j.
Proof.
  intros n Ha Hb Hself Hother Hi Hj.
  unfold BeliefState.merge_with_other_belief. rewrite Hself, Hother.
  cbn [BeliefState.belief].
  apply (normalize_if_positive_ext n); try done; try by apply shaped_add; apply shaped_scale.
  intros i' j' Hi' Hj'. rewrite !(get_average n) by done.
  unfold weighted_average. ring.
Qed.

(** X9. The extreme weights: against a peer that has not found the fire,
    weight 1 keeps the cells of a valid belief and weight 0 replaces them
    by the cells of a valid peer. *)
Theorem merge_extreme_weights self other i j :
  let n := Z.to_nat (BeliefState.grid_size self) in
  shaped n n (BeliefState.belief self) -> shaped n n (BeliefState.belief other) ->
  BeliefState.fire_found other = false ->
  (i < n)%nat -> (j < n)%nat ->
  (normalized_or_degenerate self ->
     np.get (BeliefState.belief (BeliefState.merge_with_other_belief self other 1)) i j
     == np.get (BeliefState.belief self) i j)
  /\ (normalized_or_degenerate other ->
      np.get (BeliefState.belief (BeliefState.merge_with_other_belief self other 0)) i j
      == np.get (BeliefState.belief other) i j).
Proof.
  intros n Ha Hb Hother Hi Hj.
  unfold BeliefState.merge_with_other_belief. rewrite Hother. cbn [BeliefState.belief].
  assert (Hfix : forall (weight : Q) (c : np.ndarray),
            shaped n n c -> np.sum c == 1 \/ np.sum c == 0 ->
            (forall i j, (i < n)%nat -> (j < n)%nat ->
               weighted_average weight (BeliefState.belief self) (BeliefState.belief other) i j
               == np.get c i j) ->
            np.get (BeliefState.normalize_if_positive
                      (np.add (np.scale weight (BeliefState.belief self))
                              (np.scale (1 - weight) (BeliefState.belief other)))) i j
            == np.get c i j).
  { intros weight c Hc Hnorm Hcells.
    set (avg := np.add _ _).
    assert (Havg : shaped n n avg) by by apply shaped_add; apply shaped_scale.
    assert (Heq : forall i j, (i < n)%nat -> (j < n)%nat -> np.get avg i j == np.get c i j).
    { intros i' j' Hi' Hj'. unfold avg. rewrite (get_average n) by done. by apply Hcells. }
    rewrite (normalize_if_positive_ext n avg c i j Havg Hc Heq Hi Hj).
    apply (normalize_if_positive_fixed n); [done| |done|done].
    destruct Hnorm as [H|H]; [by left|right; lra]. }
  split; intros Hnorm; apply Hfix; try done;
    intros i' j' _ _; unfold weighted_average; ring.
Qed.

(** What [get_most_likely_location] returns on a non-empty grid. *)
Lemma most_likely_spec self :
  let n := Z.to_nat (BeliefState.grid_size self) in
  let b := BeliefState.belief self in
  well_shaped self -> (0 < n)%nat ->
  exists r c,
    BeliefState.get_most_likely_location self = Some (r, c)
    /\ (r < n)%nat /\ (c < n)%nat
    /\ (forall i j, (i < n)%nat -> (j < n)%nat -> np.get b i j <= np.get b r c)
    /\ (forall i j, (i < n)%nat -> (j < n)%nat ->
          np.get b i j == np.get b r c -> row_major_le (r, c) (i, j)).
Proof.
  intros n b Hshape Hpos. fold n b in Hshape.
  pose proof (length_flatten n n b Hshape) as Hlen.
  destruct (argmax_list_spec (np.flatten b)) as (m & vm & Hm & Hvm & Hmax & Hfirst).
  { intros Hnil. rewrite Hnil in Hlen. simpl in Hlen. nia. }
  assert (Hmlt : (m < n * n)%nat) by (rewrite <- Hlen; by eapply lookup_lt_Some).
  pose proof (Nat.div_mod_eq m n) as Hdm.
  assert (Hc : (m mod n < n)%nat) by (apply Nat.mod_upper_bound; lia).
  assert (Hr : (m / n < n)%nat) by (apply Nat.Div0.div_lt_upper_bound; lia).
  assert (Hflat : forall i j, (i < n)%nat -> (j < n)%nat ->
            np.flatten b !! (i * n + j)%nat = Some (np.get b i j)).
  { intros i j Hi Hj. rewrite (lookup_flatten n n) by done. by apply (get_in_grid n n). }
  assert (Hbest : np.get b (m / n) (m mod n) = vm).
  { pose proof (Hflat (m / n)%nat (m mod n)%nat Hr Hc) as H.
    replace (m / n * n + m mod n)%nat with m in H by lia. congruence. }
  exists (m / n)%nat, (m mod n)%nat. split_and!; [|done|done| |].
  - unfold BeliefState.get_most_likely_location, np.argmax. fold b. rewrite Hm. simpl.
    by rewrite (shape_shaped n n).
  - intros i j Hi Hj. rewrite Hbest. by eapply Hmax, Hflat.
  - intros i j Hi Hj Heq. rewrite Hbest in Heq.
    destruct (decide (i * n + j < m)%nat) as [Hlt|Hge].
    + pose proof (Hfirst _ _ Hlt (Hflat i j Hi Hj)). lra.
    + unfold row_major_le. cbn [fst snd]. nia.
Qed.

(** X10. [get_most_likely_location] fails exactly on the empty grid: on a
    well-shaped belief it raises (numpy's [ValueError]) when [grid_size] is
    not positive, and returns a cell of the grid otherwise. *)
Theorem most_likely_fails_iff_empty self :
  well_shaped self ->
  (BeliefState.get_most_likely_location self = None <-> (BeliefState.grid_size self <= 0)%Z)
  /\ (forall r c, BeliefState.get_most_likely_location self = Some (r, c) ->
        (Z.of_nat r < BeliefState.grid_size self)%Z
        /\ (Z.of_nat c < BeliefState.grid_size self)%Z).
Proof.
  intros Hshape.
  destruct (decide (BeliefState.grid_size self <= 0)%Z) as [Hle|Hgt].
  - assert (Hnil : BeliefState.belief self = []).
    { destruct Hshape as [Hlen _]. apply nil_length_inv. rewrite Hlen. lia. }
    unfold BeliefState.get_most_likely_location, np.argmax. rewrite Hnil. cbn.
    split; [done|]. intros r c H. discriminate H.
  - destruct (most_likely_spec self Hshape ltac:(lia)) as (r & c & Hsome & Hr & Hc & _).
    rewrite Hsome. split.
    + split; [discriminate|lia].
    + intros r' c' [= <- <-]. lia.
Qed.

(** X11. After a positive observation from the grid the most likely
    location is the first corner of the footprint, the cell
    [(max 0 (x - w/2), max 0 (y - w/2))], not the position of the agent. *)
Theorem most_likely_after_fire_is_corner self x y w :
  let n := BeliefState.grid_size self in
  (0 <= x < n)%Z -> (0 <= y < n)%Z -> (0 <= w)%Z ->
  BeliefState.get_most_likely_location
    (BeliefState.update_with_observation self (x, y) w true)
  = Some (Z.to_nat (Z.max 0 (x - w / 2)), Z.to_nat (Z.max 0 (y - w / 2))).
Proof.
  intros n Hx Hy Hw.
  set (seen := BeliefState.update_with_observation self (x, y) w true).
  pose proof (valid_update_observed self x y w Hx Hy Hw) as (Hshape & _).
  fold seen in Hshape.
  assert (Hn : BeliefState.grid_size seen = n) by done.
  destruct (most_likely_spec seen Hshape) as (r & c & Hsome & Hr & Hc & Hmax & Hfirst);
    [rewrite Hn; lia|].
  rewrite Hn in Hr, Hc, Hmax, Hfirst. rewrite Hsome.
  pose proof (Z.div_pos w 2 Hw ltac:(lia)) as Hhalf.
  set (r0 := Z.to_nat (Z.max 0 (x - w / 2))). set (c0 := Z.to_nat (Z.max 0 (y - w / 2))).
  enough (r = r0 /\ c = c0) as [-> ->] by done.
  assert (Hr0 : (r0 < Z.to_nat n)%nat) by (unfold r0; lia).
  assert (Hc0 : (c0 < Z.to_nat n)%nat) by (unfold c0; lia).
  pose proof (footprint_size_pos n x y w Hx Hy Hw) as Hk.
  assert (Hcorner : in_footprint x y w (r0, c0) = true)
    by (apply in_footprint_spec; unfold r0, c0; lia).
  pose proof (observed_cells self x y w r0 c0 Hx Hy Hw Hr0 Hc0) as Hv0.
  pose proof (observed_cells self x y w r c Hx Hy Hw Hr Hc) as Hv.
  fold seen in Hv0, Hv. rewrite Hcorner in Hv0.
  pose proof (Hmax r0 c0 Hr0 Hc0) as Hle.
  assert (Hpos : 0 < 1 / footprint_size (Z.to_nat n) x y w)
    by (apply Qlt_shift_div_l; [done|lra]).
  destruct (in_footprint x y w (r, c)) eqn:Hin; [|exfalso; unfold n in *; lra].
  apply in_footprint_spec in Hin.
  assert (Htie : np.get (BeliefState.belief seen) r0 c0 == np.get (BeliefState.belief seen) r c)
    by (rewrite Hv0, Hv; reflexivity).
  pose proof (Hfirst r0 c0 Hr0 Hc0 Htie) as Hord.
  unfold row_major_le in Hord. cbn [fst snd] in Hord. unfold r0, c0 in *. lia.
Qed.

End BeliefLaws.

(** ** More about the drone *)

Section DroneLaws.

Local Open Scope Q_scope.
Implicit Types (self : Drone.t) (fire_pos : Z * Z) (actions : list Z).

(** X12. Sensing and belief agree on the footprint: for a fire on the
    grid, [observe] answers true exactly when the fire lies in the two
    ranges that [update_with_observation] loops over, that is, for a drone
    on the grid, exactly when a positive update would put mass on the cell
    of the fire. *)
Theorem observe_matches_window self fire_pos :
  let n := Drone.grid_size self in
  let w := Drone.window_size self in
  on_grid n fire_pos ->
  (Drone.observe self fire_pos = true <->
     fst fire_pos ∈ BeliefState.window n (Drone.x self) w
     /\ snd fire_pos ∈ BeliefState.window n (Drone.y self) w)
  /\ (forall b : BeliefState.t,
        BeliefState.grid_size b = n -> on_grid n (Drone.position self) -> (0 <= w)%Z ->
        (Drone.observe self fire_pos = true <->
           0 < np.get (BeliefState.belief
                         (BeliefState.update_with_observation b (Drone.position self) w true))
                      (Z.to_nat (fst fire_pos)) (Z.to_nat (snd fire_pos)))).
Proof.
  intros n w [Hfx Hfy].
  assert (Hobs : Drone.observe self fire_pos = true <->
            in_footprint (Drone.x self) (Drone.y self) w
              (Z.to_nat (fst fire_pos), Z.to_nat (snd fire_pos)) = true).
  { rewrite in_footprint_spec, !Z2Nat.id by lia.
    unfold Drone.observe. fold w. rewrite !andb_true_iff, !Z.leb_le. lia. }
  split.
  - rewrite Hobs, in_footprint_spec, !elem_of_window, !Z2Nat.id by lia. lia.
  - intros b Hb [Hx Hy] Hw. rewrite Hobs.
    destruct (Drone.position self) as [x y] eqn:Hpos.
    unfold Drone.x, Drone.y. rewrite Hpos. cbn [fst snd] in *.
    rewrite <- Hb in Hx, Hy, Hfx, Hfy.
    pose proof (observed_cells b x y w (Z.to_nat (fst fire_pos)) (Z.to_nat (snd fire_pos))
                  Hx Hy Hw ltac:(lia) ltac:(lia)) as Hcell.
    pose proof (footprint_size_pos _ x y w Hx Hy Hw) as Hk.
    assert (Hpos1 : 0 < 1 / footprint_size (Z.to_nat (BeliefState.grid_size b)) x y w)
      by (apply Qlt_shift_div_l; [done|lra]).
    rewrite Hcell.
    destruct (in_footprint x y w (Z.to_nat (fst fire_pos), Z.to_nat (snd fire_pos)));
      split; intros H; try done; lra.
Qed.

(** X13. An action moves a drone of the grid by at most one cell, along
    one axis; every action id other than 1, 2, 3 and 4 leaves it in place;
    no action changes the grid size, the window or the time step. *)
Theorem action_moves_one_cell self action fire_pos :
  let self' := fst (Drone.action (P := TelemetryPacket) self action fire_pos) in
  on_grid (Drone.grid_size self) (Drone.position self) ->
  (Z.abs (Drone.x self' - Drone.x self) + Z.abs (Drone.y self' - Drone.y self) <= 1)%Z
  /\ (action <> 1%Z -> action <> 2%Z -> action <> 3%Z -> action <> 4%Z ->
      Drone.position self' = Drone.position self)
  /\ Drone.grid_size self' = Drone.grid_size self
  /\ Drone.window_size self' = Drone.window_size self
  /\ Drone.dt self' = Drone.dt self.
Proof.
  intros self' [Hx Hy]. unfold self', Drone.x, Drone.y.
  rewrite action_position. cbn [Drone.action fst Drone.grid_size Drone.window_size Drone.dt].
  unfold Drone.move, Drone.x, Drone.y.
  destruct (Drone.position self) as [x y]. cbn [fst snd] in *.
  split_and!; [|intros H1 H2 H3 H4|done|done|done];
    repeat match goal with |- context [(action =? ?k)%Z] =>
             destruct (Z.eqb_spec action k) end;
    cbn [fst snd]; try done; lia.
Qed.

Lemma action_stays_grid_aux self action :
  (0 <= fst (Drone.position self) < Drone.grid_size self)%Z ->
  (0 <= snd (Drone.position self) < Drone.grid_size self)%Z ->
  (0 <= fst (Drone.move self action) < Drone.grid_size self)%Z
  /\ (0 <= snd (Drone.move self action) < Drone.grid_size self)%Z.
Proof.
  intros Hx Hy. unfold Drone.move, Drone.x, Drone.y.
  repeat match goal with |- context [(action =? ?k)%Z] =>
           destruct (Z.eqb_spec action k) end;
    cbn [fst snd]; lia.
Qed.

Lemma fly_snoc self fire_pos actions a :
  fly self fire_pos (actions ++ [a])
  = fst (Drone.action (P := TelemetryPacket) (fly self fire_pos actions) a fire_pos).
Proof. unfold fly. by rewrite foldl_snoc. Qed.

(** X14. Over any sequence of actions a drone of the grid stays on the
    grid, its clock advances by [dt] per action, and its history only
    grows: one entry per action, the last one being its current state. *)
Theorem fly_clock_and_history actions self fire_pos :
  let final := fly self fire_pos actions in
  on_grid (Drone.grid_size self) (Drone.position self) ->
  on_grid (Drone.grid_size self) (Drone.position final)
  /\ Drone.grid_size final = Drone.grid_size self
  /\ Drone.dt final = Drone.dt self
  /\ Drone.time final == Drone.time self + inject_Z (Z.of_nat (length actions)) * Drone.dt self
  /\ (exists entries, Drone.history final = Drone.history self ++ entries
                      /\ length entries = length actions)
  /\ (actions <> [] -> last (Drone.history final) = Some (Drone.state final)).
Proof.
  induction actions as [|a actions IH] using rev_ind; intros final Hgrid.
  - subst final. cbn. split_and!; try done.
    + ring.
    + exists []. by rewrite app_nil_r.
  - subst final. rewrite fly_snoc. set (prev := fly self fire_pos actions) in *.
    destruct (IH Hgrid) as (Hon & Hsize & Hdt & Htime & (entries & Hhist & Hlen) & _).
    destruct Hon as [Hx Hy]. rewrite <- Hsize in Hx, Hy.
    destruct (action_stays_grid_aux prev a) as [Hx' Hy']; [done|done|].
    set (next := fst (Drone.action (P := TelemetryPacket) prev a fire_pos)).
    assert (Hnext : Drone.position next = Drone.move prev a
                    /\ Drone.grid_size next = Drone.grid_size prev
                    /\ Drone.dt next = Drone.dt prev
                    /\ Drone.time next = Drone.time prev + Drone.dt prev
                    /\ Drone.history next = Drone.history prev ++ [Drone.state next])
      by done.
    destruct Hnext as (Hp & Hg & Hd & Ht & Hh).
    split_and!.
    + split; rewrite Hp, <- Hsize; [exact Hx'|exact Hy'].
    + by rewrite Hg.
    + by rewrite Hd.
    + rewrite Ht, Htime, Hdt, length_app, Nat2Z.inj_add, inject_Z_plus. cbn. ring.
    + exists (entries ++ [Drone.state next]).
      rewrite Hh, Hhist. split; [by rewrite app_assoc|]. rewrite !length_app, Hlen. done.
    + intros _. by rewrite Hh, last_snoc.
Qed.

End DroneLaws.

(** ** More about the orchestrator *)

Section StepLaws.

Context {D P G : Type} `{!DroneLike D P G}.
Local Open Scope Q_scope.
Implicit Types (self : SearchEnv.t) (drones : list D) (actions : list Z) (g : G) (packet : P).

Lemma check_all_grid_size drones : forall self,
  SearchEnv.grid_size (SearchEnv.check_all self drones) = SearchEnv.grid_size self.
Proof.
  unfold SearchEnv.check_all. induction drones as [|d drones IH]; intros self; [done|].
  cbn [foldl]. rewrite IH. unfold SearchEnv.check_one.
  by destruct (SearchEnv.at_fire self d), (SearchEnv.fire_extinguished self).
Qed.

(** The delivery of one packet rebuilds the list drone by drone. *)
Lemma deliver_all_length packet drones : forall seen g,
  length (fst (foldl (SearchEnv.deliver packet) (seen, g) drones))
  = (length seen + length drones)%nat.
Proof.
  induction drones as [|d drones IH]; intros seen g; [simpl; lia|].
  cbn [foldl]. unfold SearchEnv.deliver at 2.
  destruct (decide (drone_id d <> sender_id packet)).
  - destruct (receive_telemetry d packet (5 # 100) g) as [d' g'].
    rewrite IH, length_app. simpl. lia.
  - rewrite IH, length_app. simpl. lia.
Qed.

Lemma distribute_length packets : forall drones g,
  length (fst (SearchEnv.distribute packets drones g)) = length drones.
Proof.
  unfold SearchEnv.distribute.
  induction packets as [|p packets IH]; intros drones g; [done|].
  cbn [foldl fst snd].
  destruct (foldl (SearchEnv.deliver p) ([], g) drones) as [ds g'] eqn:E.
  rewrite (IH ds g').
  pose proof (deliver_all_length p drones [] g) as Hlen. by rewrite E in Hlen.
Qed.

(** A drone that carries the sender's id comes out of a delivery as it
    went in. *)
Lemma deliver_all_own packet drones : forall seen g i d,
  drones !! i = Some d -> drone_id d = sender_id packet ->
  fst (foldl (SearchEnv.deliver packet) (seen, g) drones) !! (length seen + i)%nat = Some d.
Proof.
  induction drones as [|x drones IH] using rev_ind; intros seen g i d Hi Hid.
  - by rewrite lookup_nil in Hi.
  - rewrite foldl_snoc.
    pose proof (deliver_all_length packet drones seen g) as Hlen.
    destruct (foldl (SearchEnv.deliver packet) (seen, g) drones) as [ds g'] eqn:E.
    cbn [fst] in Hlen.
    destruct (decide (i < length drones)%nat) as [Hlt|Hge].
    + rewrite lookup_app_l in Hi by done.
      pose proof (IH seen g i d Hi Hid) as Hprev. rewrite E in Hprev. cbn [fst] in Hprev.
      unfold SearchEnv.deliver.
      destruct (decide (drone_id x <> sender_id packet));
        [destruct (receive_telemetry x packet (5 # 100) g') as [x' g'']|];
        cbn [fst]; rewrite lookup_app_l by lia; done.
    + assert (i = length drones).
      { apply lookup_lt_Some in Hi. rewrite length_app in Hi. simpl in Hi. lia. }
      subst i. rewrite lookup_app_r, Nat.sub_diag in Hi by lia. injection Hi as ->.
      unfold SearchEnv.deliver. rewrite decide_False by (intros Hne; by apply Hne).
      cbn [fst]. rewrite lookup_app_r by lia.
      by replace (length seen + length drones - length ds)%nat with 0%nat by lia.
Qed.

(** X15. Delivery keeps the roster: whatever the packets, [distribute]
    returns as many drones as it was given, and a packet never reaches a
    drone that carries its sender's id; when every drone carries the id of
    every packet (a lone drone, or drones sharing one id), nothing is
    delivered and the random generator is not touched. *)
Theorem distribute_skips_sender :
  (forall (packets : list P) drones g,
     length (fst (SearchEnv.distribute packets drones g)) = length drones)
  /\ (forall packet drones g i d,
        drones !! i = Some d -> drone_id d = sender_id packet ->
        fst (SearchEnv.distribute [packet] drones g) !! i = Some d)
  /\ (forall (packets : list P) drones g,
        (forall p d, p ∈ packets -> d ∈ drones -> drone_id d = sender_id p) ->
        SearchEnv.distribute packets drones g = (drones, g)).
Proof.
  split_and!.
  - intros. apply distribute_length.
  - intros packet drones g i d Hi Hid. unfold SearchEnv.distribute. cbn [foldl fst snd].
    by apply (deliver_all_own packet drones [] g i d).
  - intros packets drones g. unfold SearchEnv.distribute.
    induction packets as [|p packets IH]; intros Hown; [done|].
    cbn [foldl fst snd].
    assert (Hsame : forall ds seen, (forall d, d ∈ ds -> drone_id d = sender_id p) ->
              foldl (SearchEnv.deliver p) (seen, g) ds = (seen ++ ds, g)).
    { induction ds as [|d ds IHds]; intros seen Hds; [by rewrite app_nil_r|].
      cbn [foldl]. unfold SearchEnv.deliver at 2.
      rewrite decide_False
        by (intros Hne; apply Hne, Hds, elem_of_cons; by left).
      rewrite IHds by (intros d' Hd'; apply Hds, elem_of_cons; by right).
      by rewrite <- app_assoc. }
    rewrite Hsame by (intros d Hd; apply Hown; [apply elem_of_cons; by left|done]).
    cbn [app]. apply IH. intros p' d Hp' Hd. apply Hown; [apply elem_of_cons; by right|done].
Qed.

Lemma act_all_no_actions self drones :
  SearchEnv.act_all self drones [] = ([], [], 0, SearchEnv.total_communications self).
Proof. unfold SearchEnv.act_all. by destruct drones. Qed.

(** X16. A tick without actions costs nothing and moves nobody: [zip]
    pairs no drone, so no drone acts, no packet is sent, the counters and
    the random generator keep their values; the termination scan still
    runs: the first drone of the list whose position is the fire's ends
    the search and gives its clock, and without such a drone the flag
    stays unset. *)
Theorem step_without_actions self drones g :
  let r := SearchEnv.step self drones [] g in
  fst (returned r) = 0
  /\ drones_after r = drones
  /\ rng_after r = g
  /\ SearchEnv.total_communications (env_after r) = SearchEnv.total_communications self
  /\ SearchEnv.total_cost (env_after r) = SearchEnv.total_cost self + 0
  /\ (SearchEnv.fire_extinguished self = false ->
      forall before d after,
        drones = before ++ d :: after ->
        (forall d', d' ∈ before ->
           ~ (drone_x d' = fst (SearchEnv.fire_pos self)
              /\ drone_y d' = snd (SearchEnv.fire_pos self))) ->
        drone_x d = fst (SearchEnv.fire_pos self) ->
        drone_y d = snd (SearchEnv.fire_pos self) ->
        SearchEnv.fire_extinguished (env_after r) = true
        /\ SearchEnv.time_to_extinguish (env_after r) = Some (drone_time d))
  /\ (SearchEnv.fire_extinguished self = false ->
      (forall d, d ∈ drones ->
         ~ (drone_x d = fst (SearchEnv.fire_pos self)
            /\ drone_y d = snd (SearchEnv.fire_pos self))) ->
      SearchEnv.fire_extinguished (env_after r) = false
      /\ SearchEnv.time_to_extinguish (env_after r) = SearchEnv.time_to_extinguish self).
Proof.
  intros r.
  destruct (step_unfold self drones [] g) as (Hr & Hd & Hg & Hx & Ht & Hc & Hn & _).
  fold r in Hr, Hd, Hg, Hx, Ht, Hc, Hn.
  rewrite act_all_no_actions in Hr, Hd, Hg, Hx, Ht, Hc, Hn.
  cbn [fst snd app length drop SearchEnv.distribute foldl] in Hr, Hd, Hg, Hx, Ht, Hc, Hn.
  rewrite Hr, Hd, Hg, Hc, Hn, Hx, Ht. split_and!; try done.
  - intros Hf before d after Hsplit Hbefore Hdx Hdy.
    match goal with |- context [SearchEnv.check_all ?e ?ds] =>
      pose proof (check_all_running ds e Hf) as Hscan;
      change (first_at_fire e ds) with (first_at_fire self drones) in Hscan end.
    assert (Hfirst : first_at_fire self drones = Some d)
      by (rewrite Hsplit; by apply first_at_fire_split).
    by rewrite Hfirst in Hscan.
  - intros Hf Hnone.
    match goal with |- context [SearchEnv.check_all ?e ?ds] =>
      pose proof (check_all_running ds e Hf) as Hscan;
      change (first_at_fire e ds) with (first_at_fire self drones) in Hscan end.
    rewrite (first_at_fire_none self drones Hnone) in Hscan. by rewrite Hscan.
Qed.

Lemma step_config self drones actions g :
  let r := SearchEnv.step self drones actions g in
  SearchEnv.grid_size (env_after r) = SearchEnv.grid_size self
  /\ SearchEnv.communication_cost (env_after r) = SearchEnv.communication_cost self
  /\ SearchEnv.movement_cost (env_after r) = SearchEnv.movement_cost self.
Proof.
  cbn zeta. unfold SearchEnv.step.
  destruct (SearchEnv.act_all self drones actions) as [[[acted packets] step_cost] comms].
  destruct (SearchEnv.distribute packets (acted ++ drop (length acted) drones) g)
    as [drones2 g'].
  unfold env_after. cbn [fst snd SearchEnv.grid_size SearchEnv.communication_cost
                         SearchEnv.movement_cost].
  match goal with |- context [SearchEnv.check_all ?e ?ds] =>
    destruct (check_all_frame ds e) as (_ & _ & _ & H4 & H5);
    rewrite (check_all_grid_size ds e), H4, H5 end.
  done.
Qed.

Lemma length_outcomes self drones actions :
  length (outcomes self drones actions) = Nat.min (length drones) (length actions).
Proof. unfold outcomes. by rewrite length_fmap, length_zip_with. Qed.

(** X17. A tick never touches the configuration of the environment
    (grid size, fire position, the two costs) nor the number of drones,
    and the flag it returns is the flag it leaves in the environment. *)
Theorem step_frame self drones actions g :
  let r := SearchEnv.step self drones actions g in
  SearchEnv.grid_size (env_after r) = SearchEnv.grid_size self
  /\ SearchEnv.fire_pos (env_after r) = SearchEnv.fire_pos self
  /\ SearchEnv.communication_cost (env_after r) = SearchEnv.communication_cost self
  /\ SearchEnv.movement_cost (env_after r) = SearchEnv.movement_cost self
  /\ length (drones_after r) = length drones
  /\ snd (returned r) = SearchEnv.fire_extinguished (env_after r).
Proof.
  intros r.
  destruct (step_config self drones actions g) as (Hgs & Hcc & Hmc).
  destruct (step_unfold self drones actions g) as (Hr & Hd & _ & Hx & _ & _ & _ & Hfp).
  destruct (act_all_spec self drones actions) as (Hacted & _).
  fold r in Hgs, Hcc, Hmc, Hr, Hd, Hx, Hfp.
  split_and!; try done.
  - rewrite Hd, distribute_length, length_app, length_drop, Hacted, length_fmap.
    rewrite length_outcomes. lia.
  - by rewrite Hr, Hx.
Qed.

Lemma length_packets_of (outs : list (D * option P * Z)) :
  (length (packets_of outs) <= length outs)%nat.
Proof.
  unfold packets_of. induction outs as [|[[d [p|]] a] outs IH]; cbn in *; lia.
Qed.

Lemma sum_list_bound {A : Type} (f : A -> Q) (c : Q) (l : list A) :
  (forall x, x ∈ l -> f x <= c) ->
  np.sum_list (f <$> l) <= inject_Z (Z.of_nat (length l)) * c.
Proof.
  intros Hf. rewrite <- sum_list_ones, Qmult_comm, <- (sum_list_scale c (fun _ => 1)).
  apply sum_list_le. intros x Hx. specialize (Hf x Hx). lra.
Qed.

(** X18. With non-negative costs the counters only grow: the cost of a
    tick lies between 0 and the number of acting agents times the larger
    of the two costs, [total_cost] does not decrease, and
    [total_communications] grows by at most one per acting agent, the
    acting agents being as many as the shorter of the two lists. *)
Theorem step_counters_grow self drones actions g :
  let r := SearchEnv.step self drones actions g in
  let acting := Nat.min (length drones) (length actions) in
  0 <= SearchEnv.communication_cost self -> 0 <= SearchEnv.movement_cost self ->
  0 <= fst (returned r)
  /\ (forall c, SearchEnv.communication_cost self <= c -> SearchEnv.movement_cost self <= c ->
        fst (returned r) <= inject_Z (Z.of_nat acting) * c)
  /\ SearchEnv.total_cost self <= SearchEnv.total_cost (env_after r)
  /\ (SearchEnv.total_communications self
      <= SearchEnv.total_communications (env_after r)
      <= SearchEnv.total_communications self + Z.of_nat acting)%Z.
Proof.
  intros r acting Hcc Hmc.
  destruct (step_unfold self drones actions g) as (Hr & _ & _ & _ & _ & Hc & Hn & _).
  destruct (act_all_spec self drones actions) as (_ & _ & Hcost & Hcomms).
  fold r in Hr, Hc, Hn. rewrite Hr, Hc, Hn, Hcomms. cbn [fst].
  set (outs := outcomes self drones actions) in *.
  assert (Hlen : length outs = acting) by apply length_outcomes.
  assert (Hcontrib : forall o : D * option P * Z,
            0 <= contribution self (snd (fst o)) (snd o)).
  { intros [[d [p|]] a]; cbn [fst snd contribution]; [done|].
    destruct (a =? 0)%Z; [lra|done]. }
  assert (Hlow : 0 <= cost_of self outs) by (apply sum_list_nonneg; intros; apply Hcontrib).
  pose proof (length_packets_of outs) as Hpk.
  split_and!.
  - rewrite Hcost. exact Hlow.
  - intros c Hc1 Hc2. rewrite Hcost, <- Hlen. apply sum_list_bound.
    intros [[d [p|]] a] _; cbn [fst snd contribution]; [done|].
    destruct (a =? 0)%Z; lra.
  - rewrite Hcost. lra.
  - lia.
  - lia.
Qed.

(** The flag and the recorded time change together. *)
Lemma step_time_recorded self drones actions g :
  time_recorded self -> time_recorded (env_after (SearchEnv.step self drones actions g)).
Proof.
  unfold time_recorded. intros Hrec.
  destruct (SearchEnv.fire_extinguished self) eqn:Hf.
  - destruct (step_extinguished self drones actions g Hf) as (H1 & H2 & _).
    rewrite H1, H2. tauto.
  - pose proof (step_running self drones actions g Hf) as Hrun. cbv zeta in Hrun.
    assert (Hnone : SearchEnv.time_to_extinguish self = None).
    { destruct (SearchEnv.time_to_extinguish self); [|done].
      assert (false = true) by (apply Hrec; eauto). done. }
    destruct (first_at_fire self _) as [d|].
    + destruct Hrun as (H1 & H2 & _). rewrite H1, H2. split; eauto.
    + destruct Hrun as (H1 & H2 & _). rewrite H1, H2, Hnone. split; [done|].
      intros [? ?]; done.
Qed.

(** X19. The extinguishing time is recorded exactly when the flag is set:
    this holds in a fresh environment, every tick keeps it, and so it
    holds after any run of ticks on any drones. *)
Theorem flag_and_time_agree :
  (forall grid_size fire communication_cost movement_cost,
     time_recorded (SearchEnv.init grid_size fire communication_cost movement_cost))
  /\ (forall self drones actions g,
        time_recorded self ->
        time_recorded (env_after (SearchEnv.step self drones actions g)))
  /\ (forall ticks self drones g,
        time_recorded self ->
        time_recorded (fst (fst (SearchEnv.run self drones g ticks)))).
Proof.
  split_and!.
  - intros. unfold time_recorded. cbn. split; [done|]. intros [? ?]; done.
  - intros. by apply step_time_recorded.
  - induction ticks as [|actions ticks IH]; intros self drones g Hrec; [done|].
    cbn [SearchEnv.run].
    pose proof (step_time_recorded self drones actions g Hrec) as Hstep.
    destruct (SearchEnv.step self drones actions g) as [[[ret self'] drones'] g'].
    by apply IH.
Qed.

End StepLaws.

(** ** The playground *)

Section PlaygroundLaws.

Implicit Types (self : FireSearchEnv.t) (actions : list Z) (ticks : list (list Z)).

Lemma playground_move_on_grid self pos action :
  on_grid (FireSearchEnv.grid_size self) pos ->
  on_grid (FireSearchEnv.grid_size self) (FireSearchEnv.move self pos action).
Proof.
  unfold on_grid, FireSearchEnv.move. destruct pos as [x y]. cbn [fst snd]. intros [Hx Hy].
  repeat match goal with |- context [(action =? ?k)%Z] =>
           destruct (Z.eqb_spec action k) end;
    cbn [fst snd]; lia.
Qed.

Lemma playground_step_short self actions :
  (length actions < 2)%nat -> FireSearchEnv.step self actions = None.
Proof.
  intros Hlen. unfold FireSearchEnv.step.
  destruct (FireSearchEnv.drones self !! 0%nat); [|done]. cbn.
  destruct actions as [|a0 [|a1 rest]]; cbn in *; [done| |lia].
  by destruct (FireSearchEnv.drones self !! 1%nat).
Qed.

Lemma playground_step_on_grid self actions :
  two_on_grid self -> (2 <= length actions)%nat ->
  exists r, FireSearchEnv.step self actions = Some r
    /\ two_on_grid (fst r)
    /\ FireSearchEnv.grid_size (fst r) = FireSearchEnv.grid_size self
    /\ FireSearchEnv.fire_pos (fst r) = FireSearchEnv.fire_pos self.
Proof.
  intros (d0 & d1 & Hd & H0 & H1) Hlen.
  destruct actions as [|a0 [|a1 rest]]; cbn in Hlen; [lia|lia|].
  unfold FireSearchEnv.step. rewrite Hd. cbn.
  eexists. split; [reflexivity|]. cbn. split_and!; [|done|done].
  exists (FireSearchEnv.move self d0 a0), (FireSearchEnv.move self d1 a1).
  split_and!; [done| |]; by apply (playground_move_on_grid self).
Qed.

(** X20. From a fresh playground on a grid of size at least 1 a run of
    steps raises exactly when some tick brings fewer than two actions;
    otherwise it ends with the same two drones, both on the grid, and with
    the grid size and the fire where they were. *)
Theorem playground_run_on_grid ticks (n : Z) (fire0 fire1 : Z * Z) :
  (1 <= n)%Z ->
  let start := FireSearchEnv.init n fire0 fire1 in
  (FireSearchEnv.run start ticks = None
     <-> Exists (fun actions => (length actions < 2)%nat) ticks)
  /\ (forall final, FireSearchEnv.run start ticks = Some final ->
        two_on_grid final
        /\ FireSearchEnv.grid_size final = n
        /\ FireSearchEnv.fire_pos final = fire1).
Proof.
  intros Hn start.
  assert (Hstart : two_on_grid start).
  { exists (0, 0)%Z, (n - 1, n - 1)%Z. unfold on_grid. cbn. split_and!; try done; lia. }
  assert (Hsize : FireSearchEnv.grid_size start = n) by done.
  assert (Hfire : FireSearchEnv.fire_pos start = fire1) by done.
  clearbody start. revert start Hstart Hsize Hfire.
  induction ticks as [|actions ticks IH]; intros self Hself Hsize Hfire.
  - cbn. split.
    + split; [done|]. intros H. by apply Exists_nil in H.
    + by intros final [= <-].
  - cbn [FireSearchEnv.run]. rewrite Exists_cons.
    destruct (decide (length actions < 2)%nat) as [Hshort|Hlong].
    + rewrite playground_step_short by done. cbn. split; [tauto|done].
    + destruct (playground_step_on_grid self actions Hself ltac:(lia))
        as (r & Hr & Hinv & Hsize' & Hfire').
      rewrite Hr. cbn.
      destruct (IH (fst r) Hinv ltac:(congruence) ltac:(congruence)) as [Hnone Hsome].
      split; [|done]. rewrite Hnone. tauto.
Qed.

End PlaygroundLaws.

(** ** The further theorems at work on the sample data *)

(** Closes [valid self] for a concrete belief on a 5 by 5 grid. *)
Ltac concrete_valid :=
  split_and!;
  [ concrete_shape
  | let i := fresh "i" in let j := fresh "j" in
    let Hi := fresh in let Hj := fresh in
    intros i j Hi Hj; vm_compute in Hi, Hj;
    each_cell_of_5x5 i j ltac:(by vm_compute)
  | first [left; by vm_compute | right; by vm_compute] ].

(** X1 on the 5 by 5 grid. *)
Lemma init_uniform_witness :
  (np.get (BeliefState.belief (BeliefState.init 5)) 4 0 == 1 / inject_Z (5 * 5))%Q
  /\ (np.sum (BeliefState.belief (BeliefState.init 5)) == 1)%Q.
Proof.
  destruct (init_uniform 5 ltac:(lia)) as (_ & Hcell & Hsum & _).
  split; [exact (Hcell 4%nat 0%nat ltac:(simpl; lia) ltac:(simpl; lia)) | exact Hsum].
Defined.

(** X2 on the sample session. *)
Lemma operations_keep_valid_witness :
  valid (apply_operations Sample.prior Scenario.session)
  /\ BeliefState.grid_size (apply_operations Sample.prior Scenario.session) = 5%Z.
Proof.
  apply (operations_keep_valid Scenario.session Sample.prior).
  - concrete_valid.
  - unfold Scenario.session.
    repeat (apply Forall_cons; split); try apply Forall_nil; try exact I;
      try (by vm_compute).
    split_and!; [concrete_valid | reflexivity | by vm_compute | by vm_compute].
Defined.

(** X3 on the sample session, started after the fire was seen. *)
Lemma fire_found_is_sticky_witness :
  BeliefState.fire_found (apply_operations Scenario.seen Scenario.session) = true.
Proof. exact (proj2 (fire_found_is_sticky Scenario.session Scenario.seen) eq_refl). Defined.

(** X4 on the uniform prior. *)
Lemma update_no_fire_idempotent_witness :
  (np.get (BeliefState.belief
             (BeliefState.update_with_observation Sample.searched (2, 2)%Z 3 false)) 0 4
   == np.get (BeliefState.belief Sample.searched) 0 4)%Q.
Proof.
  apply (update_no_fire_idempotent Sample.prior 2 2 3 0 4);
    [concrete_valid | vm_compute; lia | vm_compute; lia].
Defined.

(** X5 on the uniform prior. *)
Lemma no_fire_after_fire_wipes_belief_witness :
  (np.sum (BeliefState.belief
             (BeliefState.update_with_observation Scenario.seen (2, 2)%Z 3 false)) == 0)%Q
  /\ BeliefState.fire_found
       (BeliefState.update_with_observation Scenario.seen (2, 2)%Z 3 false) = true.
Proof.
  destruct (no_fire_after_fire_wipes_belief Sample.prior 2 2 3) as (_ & Hsum & Hfound);
    [by vm_compute ..|].
  split; [exact Hsum | exact Hfound].
Defined.

(** X6 on the uniform prior: the corner cell rises from 1/25 to 1/16. *)
Lemma update_no_fire_raises_outside_witness :
  (np.get (BeliefState.belief Sample.prior) 0 0
   <= np.get (BeliefState.belief Sample.searched) 0 0)%Q.
Proof.
  apply (update_no_fire_raises_outside Sample.prior 2 2 3 0 0);
    [concrete_valid | vm_compute; lia | vm_compute; lia | reflexivity].
Defined.

(** X7 on the prior and the belief left by the negative observation. *)
Lemma merge_of_normalized_is_convex_witness :
  (np.get (BeliefState.belief
             (BeliefState.merge_with_other_belief Sample.prior Sample.searched (1 # 4))) 0 0
   == (1 # 4) * np.get (BeliefState.belief Sample.prior) 0 0
      + (1 - (1 # 4)) * np.get (BeliefState.belief Sample.searched) 0 0)%Q.
Proof.
  apply (merge_of_normalized_is_convex Sample.prior Sample.searched (1 # 4) 0 0);
    [concrete_shape | concrete_shape | by vm_compute | by vm_compute | reflexivity
    | by vm_compute | vm_compute; lia | vm_compute; lia].
Defined.

(** X8 on the same two beliefs. *)
Lemma merge_swaps_with_weight_witness :
  (np.get (BeliefState.belief
             (BeliefState.merge_with_other_belief Sample.prior Sample.searched (1 # 4))) 2 2
   == np.get (BeliefState.belief
                (BeliefState.merge_with_other_belief Sample.searched Sample.prior
                   (1 - (1 # 4)))) 2 2)%Q.
Proof.
  apply (merge_swaps_with_weight Sample.prior Sample.searched (1 # 4) 2 2);
    [concrete_shape | concrete_shape | reflexivity | reflexivity
    | vm_compute; lia | vm_compute; lia].
Defined.

(** X9 on the same two beliefs. *)
Lemma merge_extreme_weights_witness :
  (np.get (BeliefState.belief
             (BeliefState.merge_with_other_belief Sample.prior Sample.searched 1)) 2 2
   == np.get (BeliefState.belief Sample.prior) 2 2)%Q
  /\ (np.get (BeliefState.belief
                (BeliefState.merge_with_other_belief Sample.prior Sample.searched 0)) 2 2
      == np.get (BeliefState.belief Sample.searched) 2 2)%Q.
Proof.
  destruct (merge_extreme_weights Sample.prior Sample.searched 2 2) as [Hone Hzero];
    [concrete_shape | concrete_shape | reflexivity | vm_compute; lia | vm_compute; lia |].
  split; [apply Hone | apply Hzero]; left; by vm_compute.
Defined.

(** X10 on the empty grid and on the uniform prior. *)
Lemma most_likely_fails_iff_empty_witness :
  BeliefState.get_most_likely_location Scenario.empty = None
  /\ BeliefState.get_most_likely_location Sample.prior <> None.
Proof.
  split.
  - apply (proj1 (most_likely_fails_iff_empty Scenario.empty ltac:(concrete_shape))).
    by vm_compute.
  - intros Hnone.
    apply (proj1 (most_likely_fails_iff_empty Sample.prior ltac:(concrete_shape))) in Hnone.
    by vm_compute in Hnone.
Defined.

(** X11 on the 5 by 5 scenario: the fire was seen from (2, 2), the most
    likely location is (1, 1). *)
Lemma most_likely_after_fire_is_corner_witness :
  BeliefState.get_most_likely_location Scenario.seen = Some (1, 1)%nat.
Proof.
  exact (most_likely_after_fire_is_corner Sample.prior 2 2 3
           ltac:(by vm_compute) ltac:(by vm_compute) ltac:(by vm_compute)).
Defined.

(** X12 on the sample drone: a fire at (3, 1) lies in its window. *)
Lemma observe_matches_window_witness :
  Drone.observe Sample.drone (3, 1)%Z = true
  /\ (Drone.observe Sample.drone (3, 1)%Z = true <->
        3%Z ∈ BeliefState.window 5 2 3 /\ 1%Z ∈ BeliefState.window 5 2 3).
Proof.
  split; [reflexivity|].
  exact (proj1 (observe_matches_window Sample.drone (3, 1)%Z ltac:(by vm_compute))).
Defined.

(** X13 in the corner: an unknown action id leaves the drone in place. *)
Lemma action_moves_one_cell_witness :
  Drone.position (fst (Drone.action (P := TelemetryPacket) Sample.corner_drone 7 (2, 2)%Z))
  = Drone.position Sample.corner_drone.
Proof.
  destruct (action_moves_one_cell Sample.corner_drone 7 (2, 2)%Z ltac:(by vm_compute))
    as (_ & Hstay & _).
  apply Hstay; lia.
Defined.

(** X14 on the sample flight of eight actions. *)
Lemma fly_clock_and_history_witness :
  on_grid 5 (Drone.position (fly Sample.drone (4, 4)%Z Scenario.flight))
  /\ (Drone.time (fly Sample.drone (4, 4)%Z Scenario.flight)
      == 0 + inject_Z 8 * (1 # 20))%Q.
Proof.
  destruct (fly_clock_and_history Scenario.flight Sample.drone (4, 4)%Z ltac:(by vm_compute))
    as (Hon & _ & _ & Htime & _).
  split; [exact Hon | exact Htime].
Defined.

(** X15 on the two sample agents: the packet of the first one does not
    come back to it. *)
Lemma distribute_skips_sender_witness :
  fst (SearchEnv.distribute [mkPacket 0 (2, 1)%Z 3 true (1 # 20)]
         [Sample.agent_a; Sample.agent_b] []) !! 0%nat
  = Some Sample.agent_a.
Proof.
  apply (proj1 (proj2 distribute_skips_sender)); reflexivity.
Defined.

(** X16 on the sample agents, the third of them standing on the fire:
    nobody acts, and the search ends on the clock of the third. *)
Lemma step_without_actions_witness :
  let r := SearchEnv.step Sample.env
             [Sample.agent_a; Sample.agent_b; Scenario.agent_on_fire] [] [true] in
  fst (returned r) = 0%Q
  /\ drones_after r = [Sample.agent_a; Sample.agent_b; Scenario.agent_on_fire]
  /\ rng_after r = [true]
  /\ SearchEnv.fire_extinguished (env_after r) = true
  /\ SearchEnv.time_to_extinguish (env_after r) = Some (3 # 20)%Q.
Proof.
  destruct (step_without_actions Sample.env
              [Sample.agent_a; Sample.agent_b; Scenario.agent_on_fire] [true])
    as (Hcost & Hdrones & Hrng & _ & _ & Hscan & _).
  destruct (Hscan eq_refl [Sample.agent_a; Sample.agent_b] Scenario.agent_on_fire [])
    as (Hflag & Htime).
  - reflexivity.
  - intros d' Hd' [Hx Hy].
    apply elem_of_cons in Hd' as [->|Hd']; [by vm_compute in Hy|].
    apply elem_of_cons in Hd' as [->|Hd']; [by vm_compute in Hx|].
    by apply elem_of_nil in Hd'.
  - reflexivity.
  - reflexivity.
  - cbv zeta. split_and!; [exact Hcost | exact Hdrones | exact Hrng | exact Hflag | exact Htime].
Defined.

(** X18 on the communicate-and-stay tick of the sample agents. *)
Lemma step_counters_grow_witness :
  let r := SearchEnv.step Sample.env [Sample.agent_a; Sample.agent_b] [5; 0]%Z [] in
  (0 <= fst (returned r))%Q
  /\ (fst (returned r) <= inject_Z 2 * (1 # 2))%Q
  /\ (SearchEnv.total_communications (env_after r) <= 0 + 2)%Z.
Proof.
  destruct (step_counters_grow Sample.env [Sample.agent_a; Sample.agent_b] [5; 0]%Z [])
    as (Hlow & Hhigh & _ & _ & Hcomms); [by vm_compute | by vm_compute |].
  cbv zeta. split_and!; [exact Hlow | | exact Hcomms].
  apply (Hhigh (1 # 2)%Q); by vm_compute.
Defined.

(** X19 on a run of two ticks from the fresh sample environment. *)
Lemma flag_and_time_agree_witness :
  time_recorded
    (fst (fst (SearchEnv.run Sample.env [Sample.agent_a; Sample.agent_b] []
                 [[1; 0]; [5; 3]]%Z))).
Proof.
  apply (proj2 (proj2 flag_and_time_agree)).
  apply (proj1 (@flag_and_time_agree _ _ _ agent_drone_like)).
Defined.

(** X20 on two ticks of the playground. *)
Lemma playground_run_on_grid_witness :
  FireSearchEnv.run (FireSearchEnv.init 5 (1, 1)%Z (2, 2)%Z) [[0; 3]; [1; 2; 4]]%Z <> None.
Proof.
  intros Hnone.
  apply (proj1 (playground_run_on_grid [[0; 3]; [1; 2; 4]]%Z 5 (1, 1)%Z (2, 2)%Z
                  ltac:(lia))) in Hnone.
  repeat (apply Exists_cons in Hnone as [Hnone|Hnone]; [simpl in Hnone; lia|]).
  by apply Exists_nil in Hnone.
Defined.
